(** * NIS2 exposure questionnaire: the session state, the step navigation
      and the tier calculator of [script.js], with the properties its
      specification states about them.

    The script keeps one global [state] object, reads and writes the page
    through the DOM, and defers every step change made by an option click
    through [setTimeout].  The embedding keeps these three ingredients apart:
    a [World] holds the [state] object, the part of the page the script
    touches, and the queue of pending timer callbacks.  Every function of the
    script is a computation over the [World] that either completes or stops
    with a [TypeError] (a property read on [null]); what was written before
    the error stays written, as in JavaScript. *)

From Stdlib Require Import ZArith List Bool Lia.
From stdpp Require Import gmap strings.
Import ListNotations.

Local Open Scope string_scope.
Local Open Scope Z_scope.

(** ** Values *)

(** An answer slot holds [null] ([None]) or the string carried by the option
    card that was clicked. *)
Definition strictEq (v : option string) (lit : string) : bool :=
  match v with
  | Some s => String.eqb s lit
  | None => false
  end.

Notation "v === lit" := (strictEq v lit) (at level 70, no associativity).

(** ** The [state] object (script.js, lines 8-21) *)

Record DigitalInfrastructure := mkInfra {
  cloud : bool;
  mfa : bool;
  incidentProcess : bool;
  supplyChain : bool
}.

Record Answers := mkAnswers {
  entitySize : option string;
  serviceSensitivity : option string;
  digitalInfrastructure : DigitalInfrastructure;
  governanceMaturity : option string
}.

Record State := mkState {
  step : Z;
  answers : Answers
}.

(** The object literal written at lines 10-20 and again at lines 272-282. *)
Definition initialAnswers : Answers :=
  {| entitySize := None;
     serviceSensitivity := None;
     digitalInfrastructure :=
       {| cloud := false; mfa := false;
          incidentProcess := false; supplyChain := false |};
     governanceMaturity := None |}.

Definition initialState : State :=
  {| step := 1; answers := initialAnswers |}.

(** ** The page *)

(** An option card: the step element that contains it, its [data-value]
    attribute and whether it carries the class [selected]. *)
Record Card := mkCard {
  cardStep : Z;
  dataValue : option string;
  selected : bool
}.

(** One of the four check boxes read by [validateStep3]: its [checked]
    property and whether it carries the class [checkbox-input]. *)
Record Checkbox := mkCheckbox {
  checked : bool;
  checkboxInput : bool
}.

Record Badge := mkBadge {
  textContent : string;
  className : string
}.

(** An entry of the table [tiers] of [generateResults].  The five paragraphs
    of an entry only ever reach the page inside the rendered markup, which
    the model keeps as the entry it was rendered from. *)
Record TierData := mkTierData {
  label : string;
  title : string
}.

Inductive Markup :=
  | PageMarkup
  | ResultSections (data : TierData).

(** [stepEls] maps [k] to the element with id [step-k], when the page has
    one, and records whether it carries the class [active]. *)
Record Dom := mkDom {
  stepEls : gmap Z bool;
  optionCards : list Card;
  cloudInfra : option Checkbox;
  mfaEnabled : option Checkbox;
  incidentProcessBox : option Checkbox;
  supplyChainBox : option Checkbox;
  tierBadge : option Badge;
  resultContent : option Markup
}.

(** ** Deferred callbacks *)

(** The three arrow functions handed to [setTimeout] (lines 63, 67, 71).  All
    of them are queued with the same delay, so they run in the order in which
    they were queued. *)
Inductive Task :=
  | GoToStepTask (stepNumber : Z)
  | CalculateAndShowResultsTask.

Record World := mkWorld {
  state : State;
  document : Dom;
  timers : list Task
}.

(** ** Computations *)

Inductive outcome (A : Type) :=
  | Normal (a : A)
  | TypeError.
Arguments Normal {A} a.
Arguments TypeError {A}.

Definition JS (A : Type) : Type := World -> outcome A * World.

Definition ret {A} (a : A) : JS A := fun w => (Normal a, w).

Definition throw {A} : JS A := fun w => (TypeError, w).

Definition bind {A B} (c : JS A) (k : A -> JS B) : JS B :=
  fun w =>
    match c w with
    | (Normal a, w') => k a w'
    | (TypeError, w') => (TypeError, w')
    end.

Notation "'let*' x ':=' c 'in' k" := (bind c (fun x => k))
  (at level 10, x name, c at level 100, k at level 200).
Notation "c '>>' k" := (bind c (fun _ => k))
  (at level 90, right associativity).

Definition getState : JS State := fun w => (Normal (state w), w).
Definition getDom : JS Dom := fun w => (Normal (document w), w).

Definition putState (s : State) : JS unit :=
  fun w => (Normal tt, {| state := s; document := document w; timers := timers w |}).
Definition putDom (d : Dom) : JS unit :=
  fun w => (Normal tt, {| state := state w; document := d; timers := timers w |}).

(** [setTimeout(f, 300)] *)
Definition setTimeout (t : Task) : JS unit :=
  fun w =>
    (Normal tt, {| state := state w; document := document w; timers := timers w ++ [t] |}).

(** Reading a property of an element that may be [null]. *)
Definition deref {A} (o : option A) : JS A :=
  match o with
  | Some a => ret a
  | None => throw
  end.

(** ** The tier calculator (script.js, lines 122-166) *)

(** Lines 140-144: the running variable [infraRisk]. *)
Definition infraRisk (d : DigitalInfrastructure) : Z :=
  let infraRisk := 0 in
  let infraRisk := if cloud d then infraRisk + 1 else infraRisk in
  let infraRisk := if negb (mfa d) then infraRisk + 2 else infraRisk in
  let infraRisk := if negb (incidentProcess d) then infraRisk + 2 else infraRisk in
  let infraRisk := if supplyChain d then infraRisk + 1 else infraRisk in
  infraRisk.

(** Lines 125-156: the value of the variable [score] when the thresholds are
    applied. *)
Definition tierScore (a : Answers) : Z :=
  let score := 0 in
  let score :=
    if entitySize a === "large" then score + 3
    else if entitySize a === "medium" then score + 2
    else score + 1 in
  let score :=
    if serviceSensitivity a === "high" then score + 3
    else if serviceSensitivity a === "medium" then score + 2
    else score + 1 in
  let score := score + Z.min (infraRisk (digitalInfrastructure a)) 3 in
  let governanceModifier := 0 in
  let governanceModifier :=
    if governanceMaturity a === "none" then 2
    else if governanceMaturity a === "basic" then 1
    else if governanceMaturity a === "structured" then -1
    else if governanceMaturity a === "iso" then -2
    else governanceModifier in
  let score := score + governanceModifier in
  score.

(** Lines 125-165: the body of [calculateTier] once the four answers have
    been read. *)
Definition tierFor (a : Answers) : string :=
  let score := tierScore a in
  if 6 <=? score then "tier-3"
  else if 4 <=? score then "tier-2"
  else "tier-1".

(** Line 123 reads the four answers out of the global [state.answers]. *)
Definition calculateTier : JS string :=
  let* s := getState in
  ret (tierFor (answers s)).

(** ** Navigation (script.js, lines 24-51 and 112-116) *)

(** The table [steps] (lines 24-30) has the keys 1 to 5; the entry for [k] is
    the element with id [step-k], or [null] when the page has none. *)
Definition stepKeys : list Z := [1; 2; 3; 4; 5].

Definition steps (d : Dom) (k : Z) : option bool :=
  if (1 <=? k) && (k <=? 5) then stepEls d !! k else None.

Definition withStepEls (d : Dom) (els : gmap Z bool) : Dom :=
  {| stepEls := els;
     optionCards := optionCards d;
     cloudInfra := cloudInfra d;
     mfaEnabled := mfaEnabled d;
     incidentProcessBox := incidentProcessBox d;
     supplyChainBox := supplyChainBox d;
     tierBadge := tierBadge d;
     resultContent := resultContent d |}.

Definition withOptionCards (d : Dom) (cs : list Card) : Dom :=
  {| stepEls := stepEls d;
     optionCards := cs;
     cloudInfra := cloudInfra d;
     mfaEnabled := mfaEnabled d;
     incidentProcessBox := incidentProcessBox d;
     supplyChainBox := supplyChainBox d;
     tierBadge := tierBadge d;
     resultContent := resultContent d |}.

Definition withTierBadge (d : Dom) (b : Badge) : Dom :=
  {| stepEls := stepEls d;
     optionCards := optionCards d;
     cloudInfra := cloudInfra d;
     mfaEnabled := mfaEnabled d;
     incidentProcessBox := incidentProcessBox d;
     supplyChainBox := supplyChainBox d;
     tierBadge := Some b;
     resultContent := resultContent d |}.

Definition withResultContent (d : Dom) (m : Markup) : Dom :=
  {| stepEls := stepEls d;
     optionCards := optionCards d;
     cloudInfra := cloudInfra d;
     mfaEnabled := mfaEnabled d;
     incidentProcessBox := incidentProcessBox d;
     supplyChainBox := supplyChainBox d;
     tierBadge := tierBadge d;
     resultContent := Some m |}.

(** Lines 41-43: every entry of [steps] that is not [null] loses the class
    [active]. *)
Definition hideSteps (els : gmap Z bool) : gmap Z bool :=
  fold_left (fun m k => alter (fun _ => false) k m) stepKeys els.

(** [window.scrollTo] moves the viewport only and is left out. *)
Definition goToStep (stepNumber : Z) : JS unit :=
  let* d := getDom in
  let els := hideSteps (stepEls d) in
  putDom (withStepEls d els) >>
  match steps d stepNumber with
  | Some _ =>
      putDom (withStepEls d (<[stepNumber := true]> els)) >>
      let* s := getState in
      putState {| step := stepNumber; answers := answers s |}
  | None => ret tt
  end.

Definition goBack (currentStep : Z) : JS unit :=
  if 1 <? currentStep then goToStep (currentStep - 1) else ret tt.

(** ** Option cards (script.js, lines 58-91) *)

Definition markCard (step : Z) (value : string) (c : Card) : Card :=
  if cardStep c =? step then
    {| cardStep := cardStep c;
       dataValue := dataValue c;
       selected := dataValue c === value |}
  else c.

(** [stepEl.querySelectorAll] is a property read on [stepEl], which is [null]
    when the page has no element with that id. *)
Definition updateSelectionUI (step : Z) (value : string) : JS unit :=
  let* d := getDom in
  let* stepEl := deref (stepEls d !! step) in
  putDom (withOptionCards d (map (markCard step value) (optionCards d))).

Definition setEntitySize (a : Answers) (value : string) : Answers :=
  {| entitySize := Some value;
     serviceSensitivity := serviceSensitivity a;
     digitalInfrastructure := digitalInfrastructure a;
     governanceMaturity := governanceMaturity a |}.

Definition setServiceSensitivity (a : Answers) (value : string) : Answers :=
  {| entitySize := entitySize a;
     serviceSensitivity := Some value;
     digitalInfrastructure := digitalInfrastructure a;
     governanceMaturity := governanceMaturity a |}.

Definition setDigitalInfrastructure (a : Answers) (d : DigitalInfrastructure)
  : Answers :=
  {| entitySize := entitySize a;
     serviceSensitivity := serviceSensitivity a;
     digitalInfrastructure := d;
     governanceMaturity := governanceMaturity a |}.

Definition setGovernanceMaturity (a : Answers) (value : string) : Answers :=
  {| entitySize := entitySize a;
     serviceSensitivity := serviceSensitivity a;
     digitalInfrastructure := digitalInfrastructure a;
     governanceMaturity := Some value |}.

(** [state.answers = a] and [state.answers.field = value] *)
Definition putAnswers (a : Answers) : JS unit :=
  let* s := getState in
  putState {| step := step s; answers := a |}.

Definition selectOption (step : Z) (value : string) : JS unit :=
  if step =? 1 then
    (let* s := getState in putAnswers (setEntitySize (answers s) value)) >>
    updateSelectionUI 1 value >>
    setTimeout (GoToStepTask 2)
  else if step =? 2 then
    (let* s := getState in putAnswers (setServiceSensitivity (answers s) value)) >>
    updateSelectionUI 2 value >>
    setTimeout (GoToStepTask 3)
  else if step =? 4 then
    (let* s := getState in putAnswers (setGovernanceMaturity (answers s) value)) >>
    updateSelectionUI 4 value >>
    setTimeout CalculateAndShowResultsTask
  else ret tt.

(** ** Check boxes (script.js, lines 96-106) *)

(** The object literal is built first, reading [checked] on each of the four
    elements in turn, and only then stored in [state.answers]. *)
Definition validateStep3 : JS unit :=
  let* d := getDom in
  let* cloudEl := deref (cloudInfra d) in
  let* mfaEl := deref (mfaEnabled d) in
  let* incidentEl := deref (incidentProcessBox d) in
  let* supplyEl := deref (supplyChainBox d) in
  let* s := getState in
  putAnswers (setDigitalInfrastructure (answers s)
    {| cloud := checked cloudEl;
       mfa := checked mfaEl;
       incidentProcess := checked incidentEl;
       supplyChain := checked supplyEl |}) >>
  goToStep 4.

(** ** Results (script.js, lines 172-265) *)

Definition tiers (tier : string) : option TierData :=
  if String.eqb tier "tier-1" then
    Some {| label := "Exposition Limitée";
            title := "Niveau 1 : Exposition Réglementaire Limitée" |}
  else if String.eqb tier "tier-2" then
    Some {| label := "Exposition Importante";
            title := "Niveau 2 : Entité Importante - Obligations Renforcées" |}
  else if String.eqb tier "tier-3" then
    Some {| label := "Exposition Critique";
            title := "Niveau 3 : Exposition Élevée - Conformité Prioritaire" |}
  else None.

Definition generateResults (tier : string) : JS Markup :=
  let* data := deref (tiers tier) in
  let* d := getDom in
  let* badge := deref (tierBadge d) in
  putDom (withTierBadge d
    {| textContent := label data;
       className := String.append "tier-badge " tier |}) >>
  ret (ResultSections data).

Definition calculateAndShowResults : JS unit :=
  let* tier := calculateTier in
  let* content := generateResults tier in
  let* d := getDom in
  let* el := deref (resultContent d) in
  putDom (withResultContent d content) >>
  goToStep 5.

(** ** Restart (script.js, lines 270-295) *)

Definition deselect (c : Card) : Card :=
  {| cardStep := cardStep c; dataValue := dataValue c; selected := false |}.

(** [querySelectorAll('.checkbox-input')] reaches the boxes that carry that
    class. *)
Definition uncheck (o : option Checkbox) : option Checkbox :=
  match o with
  | Some cb =>
      if checkboxInput cb
      then Some {| checked := false; checkboxInput := true |}
      else Some cb
  | None => None
  end.

Definition resetUI (d : Dom) : Dom :=
  {| stepEls := stepEls d;
     optionCards := map deselect (optionCards d);
     cloudInfra := uncheck (cloudInfra d);
     mfaEnabled := uncheck (mfaEnabled d);
     incidentProcessBox := uncheck (incidentProcessBox d);
     supplyChainBox := uncheck (supplyChainBox d);
     tierBadge := tierBadge d;
     resultContent := resultContent d |}.

Definition restartAssessment : JS unit :=
  putAnswers initialAnswers >>
  (let* d := getDom in putDom (resetUI d)) >>
  goToStep 1.

(** ** The event loop *)

Definition runTask (t : Task) : JS unit :=
  match t with
  | GoToStepTask n => goToStep n
  | CalculateAndShowResultsTask => calculateAndShowResults
  end.

(** The oldest pending timer fires. *)
Definition fireTimer : JS unit :=
  fun w =>
    match timers w with
    | [] => (Normal tt, w)
    | t :: rest =>
        runTask t {| state := state w; document := document w; timers := rest |}
    end.

(** Lines 8-21 and 298-301: the script is loaded into a page and step 1 is
    shown. *)
Definition loadScript (page : Dom) : World :=
  snd (goToStep 1 {| state := initialState; document := page; timers := [] |}).

(** The events the page can deliver to the script. *)
Inductive Event :=
  | SelectOption (step : Z) (value : string)
  | ValidateStep3
  | GoBack (currentStep : Z)
  | RestartAssessment
  | TimerFires.

Definition handle (e : Event) : JS unit :=
  match e with
  | SelectOption step value => selectOption step value
  | ValidateStep3 => validateStep3
  | GoBack currentStep => goBack currentStep
  | RestartAssessment => restartAssessment
  | TimerFires => fireTimer
  end.

(** An exception thrown by a handler is reported and the page goes on with
    the world as the handler left it. *)
Definition run (es : list Event) (w : World) : World :=
  fold_left (fun w e => snd (handle e w)) es w.

(** ** A page to run the script on *)

Definition exampleCards : list Card :=
  [ mkCard 1 (Some "small") false; mkCard 1 (Some "medium") false;
    mkCard 1 (Some "large") false;
    mkCard 2 (Some "low") false; mkCard 2 (Some "medium") false;
    mkCard 2 (Some "high") false;
    mkCard 4 (Some "none") false; mkCard 4 (Some "basic") false;
    mkCard 4 (Some "structured") false; mkCard 4 (Some "iso") false ].

(** Modelled from the spec: a page, which is not among the sources, with the
    five step elements, the option cards of steps 1, 2 and 4 carrying the
    values of section 3, the four check boxes ticked as given, the badge and
    the result area. *)
Definition examplePage (boxes : DigitalInfrastructure) : Dom :=
  {| stepEls := list_to_map (map (fun k => (k, false)) stepKeys);
     optionCards := exampleCards;
     cloudInfra := Some (mkCheckbox (cloud boxes) true);
     mfaEnabled := Some (mkCheckbox (mfa boxes) true);
     incidentProcessBox := Some (mkCheckbox (incidentProcess boxes) true);
     supplyChainBox := Some (mkCheckbox (supplyChain boxes) true);
     tierBadge := Some (mkBadge "" "tier-badge");
     resultContent := Some PageMarkup |}.

Definition scenarioA : Answers :=
  {| entitySize := Some "large";
     serviceSensitivity := Some "high";
     digitalInfrastructure :=
       {| cloud := false; mfa := true;
          incidentProcess := true; supplyChain := false |};
     governanceMaturity := Some "iso" |}.

Definition scenarioB : Answers :=
  {| entitySize := Some "small";
     serviceSensitivity := Some "low";
     digitalInfrastructure :=
       {| cloud := true; mfa := false;
          incidentProcess := false; supplyChain := true |};
     governanceMaturity := Some "none" |}.

(** The clicks that enter a record, each option click followed by its
    timer. *)
Definition enter (a : Answers) : list Event :=
  [ SelectOption 1 (default "" (entitySize a)); TimerFires;
    SelectOption 2 (default "" (serviceSensitivity a)); TimerFires;
    ValidateStep3;
    SelectOption 4 (default "" (governanceMaturity a)); TimerFires ].

(** A session paused with the record [a] in [state.answers]. *)
Definition sessionWith (a : Answers) : World :=
  {| state := {| step := 4; answers := a |};
     document := examplePage (digitalInfrastructure a);
     timers := [] |}.

(** ** The scoring rubric as the specification words it (section 4.2) *)

Definition sizeWeight (entitySize : option string) : Z :=
  if decide (entitySize = Some "large") then 3
  else if decide (entitySize = Some "medium") then 2
  else 1.

Definition sensitivityWeight (serviceSensitivity : option string) : Z :=
  if decide (serviceSensitivity = Some "high") then 3
  else if decide (serviceSensitivity = Some "medium") then 2
  else 1.

Definition governanceModifier (governanceMaturity : option string) : Z :=
  if decide (governanceMaturity = Some "none") then 2
  else if decide (governanceMaturity = Some "basic") then 1
  else if decide (governanceMaturity = Some "structured") then -1
  else if decide (governanceMaturity = Some "iso") then -2
  else 0.

(** The sum of the triggered infrastructure conditions, before the cap. *)
Definition naiveInfraSum (d : DigitalInfrastructure) : Z :=
  (if cloud d then 1 else 0) + (if mfa d then 0 else 2)
  + (if incidentProcess d then 0 else 2) + (if supplyChain d then 1 else 0).

Definition tierNames : list string := ["tier-1"; "tier-2"; "tier-3"].

(** Tier 1 is the lowest exposure and tier 3 the highest (glossary). *)
Definition tierLevel (tier : string) : Z :=
  if String.eqb tier "tier-1" then 1
  else if String.eqb tier "tier-2" then 2
  else if String.eqb tier "tier-3" then 3
  else 0.

(** The values offered by the option cards of steps 1, 2 and 4. *)
Definition fullySet (a : Answers) : Prop :=
  entitySize a ∈ [Some "small"; Some "medium"; Some "large"] ∧
  serviceSensitivity a ∈ [Some "low"; Some "medium"; Some "high"] ∧
  governanceMaturity a ∈
    [Some "none"; Some "basic"; Some "structured"; Some "iso"].

(** Moving up the order small, medium, large, and low, medium, high. *)
Inductive sizeUp : string -> string -> Prop :=
  | small_medium : sizeUp "small" "medium"
  | medium_large : sizeUp "medium" "large"
  | small_large : sizeUp "small" "large".

Inductive sensitivityUp : string -> string -> Prop :=
  | low_medium : sensitivityUp "low" "medium"
  | medium_high : sensitivityUp "medium" "high"
  | low_high : sensitivityUp "low" "high".

(** Modelled from the spec: the page the script is loaded into is not among
    the sources, so which entries of [steps] are [null] is not known from
    them.  The specification has five steps and a display that shows the
    view of the current one (sections 3 and 6): the page has an element for
    each of the five steps. *)
Definition pageHasSteps (d : Dom) : bool :=
  forallb (fun k => bool_decide (is_Some (steps d k))) stepKeys.

(** ** Records used to exercise the thresholds *)

Definition answersOf (size sensitivity governance : string)
    (d : DigitalInfrastructure) : Answers :=
  {| entitySize := Some size;
     serviceSensitivity := Some sensitivity;
     digitalInfrastructure := d;
     governanceMaturity := Some governance |}.

Definition quietInfra : DigitalInfrastructure :=
  {| cloud := false; mfa := true; incidentProcess := true; supplyChain := false |}.

Definition score6 : Answers := answersOf "medium" "medium" "none" quietInfra.
Definition score5 : Answers := answersOf "medium" "medium" "basic" quietInfra.
Definition score4 : Answers := scenarioA.
Definition score3 : Answers :=
  answersOf "small" "low" "iso"
    {| cloud := true; mfa := false; incidentProcess := true; supplyChain := false |}.

(** A session never leaves the steps 1 to 5 and never gains or loses a step
    element; [w0] is the world the session started in. *)
Definition sessionInvariant (w0 w : World) : Prop :=
  1 <= step (state w) <= 5 /\
  dom (stepEls (document w)) = dom (stepEls (document w0)).

(** The check boxes of the cap example: no multi-factor authentication, no
    incident process, cloud hosting, no supply-chain dependency. *)
Definition cappedInfra : DigitalInfrastructure :=
  {| cloud := true; mfa := false; incidentProcess := false; supplyChain := false |}.

(** ** Vocabulary of the further properties *)

(** Moving up the governance order iso, structured, basic, none: from the
    most mature to the least. *)
Inductive governanceUp : string -> string -> Prop :=
  | iso_structured : governanceUp "iso" "structured"
  | structured_basic : governanceUp "structured" "basic"
  | basic_none : governanceUp "basic" "none"
  | iso_basic : governanceUp "iso" "basic"
  | structured_none : governanceUp "structured" "none"
  | iso_none : governanceUp "iso" "none".

(** Among the entries of [steps], the element of step [n] is the only one
    that carries the class [active]. *)
Definition shows (d : Dom) (n : Z) : Prop :=
  forall k, 1 <= k <= 5 -> stepEls d !! k = Some (bool_decide (k = n)).

(** The four boxes read by [validateStep3], when the page has them all. *)
Definition checkedBoxes (d : Dom) : option DigitalInfrastructure :=
  match cloudInfra d, mfaEnabled d, incidentProcessBox d, supplyChainBox d with
  | Some c, Some m, Some i, Some s =>
      Some {| cloud := checked c; mfa := checked m;
              incidentProcess := checked i; supplyChain := checked s |}
  | _, _, _, _ => None
  end.

(** The [onclick] attributes of the page call [goBack] with the number of
    the step they sit in; [goBack] reaches an entry of [steps] for the
    arguments up to 6. *)
Definition backWithinSteps (e : Event) : bool :=
  match e with
  | GoBack currentStep => currentStep <=? 6
  | _ => true
  end.

(** The events that only move between steps. *)
Definition navigates (e : Event) : bool :=
  match e with
  | GoBack _ | TimerFires => true
  | _ => false
  end.

(** The clicks of a whole questionnaire, each option click followed by its
    timer. *)
Definition questionnaire (size sensitivity governance : string) : list Event :=
  [ SelectOption 1 size; TimerFires;
    SelectOption 2 sensitivity; TimerFires;
    ValidateStep3;
    SelectOption 4 governance; TimerFires ].

(** What [selectOption] writes into the record for a step, and the callback
    it hands to [setTimeout] (lines 60-72). *)
Definition answered (step : Z) (value : string) (a : Answers) : Answers :=
  if step =? 1 then setEntitySize a value
  else if step =? 2 then setServiceSensitivity a value
  else if step =? 4 then setGovernanceMaturity a value
  else a.

Definition scheduled (step : Z) : list Task :=
  if step =? 1 then [GoToStepTask 2]
  else if step =? 2 then [GoToStepTask 3]
  else if step =? 4 then [CalculateAndShowResultsTask]
  else [].

(** A pending callback that navigates does so to an entry of [steps]. *)
Definition taskWithinSteps (t : Task) : bool :=
  match t with
  | GoToStepTask n => (1 <=? n) && (n <=? 5)
  | CalculateAndShowResultsTask => true
  end.

(** A page that has everything the script reads: the five step elements,
    the four check boxes (ticked as [boxes]), the badge and the result
    area. *)
Definition completePage (d : Dom) (boxes : DigitalInfrastructure) : Prop :=
  pageHasSteps d = true /\
  checkedBoxes d = Some boxes /\
  is_Some (tierBadge d) /\
  is_Some (resultContent d).

(** The four check boxes are on the page and carry the class
    [checkbox-input], by which [restartAssessment] finds them. *)
Definition boxesCarryClass (d : Dom) : bool :=
  forallb (fun o => match o with
                    | Some cb => checkboxInput cb
                    | None => false
                    end)
    [cloudInfra d; mfaEnabled d; incidentProcessBox d; supplyChainBox d].

(** Two worlds on defective pages: one at step 3 of a page without the
    supply-chain box, one at step 4 of a page without the result area. *)
Definition worldWithoutSupplyChainBox : World :=
  {| state := {| step := 3; answers := scenarioB |};
     document :=
       {| stepEls := stepEls (examplePage quietInfra);
          optionCards := exampleCards;
          cloudInfra := Some (mkCheckbox false true);
          mfaEnabled := Some (mkCheckbox true true);
          incidentProcessBox := Some (mkCheckbox true true);
          supplyChainBox := None;
          tierBadge := None;
          resultContent := None |};
     timers := [] |}.

Definition worldWithoutResultArea : World :=
  {| state := {| step := 4; answers := scenarioB |};
     document :=
       {| stepEls := stepEls (examplePage quietInfra);
          optionCards := exampleCards;
          cloudInfra := None;
          mfaEnabled := None;
          incidentProcessBox := None;
          supplyChainBox := None;
          tierBadge := Some (mkBadge "" "tier-badge");
          resultContent := None |};
     timers := [] |}.

(** * Properties *)

(** ** The calculator *)

Lemma strictEq_decide (v : option string) (lit : string) :
  (v === lit) = bool_decide (v = Some lit).
Proof.
  destruct v as [s|]; simpl.
  - destruct (String.eqb_spec s lit) as [->|Hne].
    + symmetry. now apply bool_decide_eq_true.
    + symmetry. apply bool_decide_eq_false. congruence.
  - reflexivity.
Qed.

Lemma infraRisk_naive (d : DigitalInfrastructure) :
  infraRisk d = naiveInfraSum d.
Proof.
  unfold infraRisk, naiveInfraSum.
  destruct d as [[] [] [] []]; reflexivity.
Qed.

Lemma infraRisk_range (d : DigitalInfrastructure) : 0 <= infraRisk d <= 6.
Proof.
  rewrite infraRisk_naive. unfold naiveInfraSum.
  destruct (cloud d), (mfa d), (incidentProcess d), (supplyChain d); lia.
Qed.

Lemma tierScore_weights (a : Answers) :
  tierScore a
  = sizeWeight (entitySize a) + sensitivityWeight (serviceSensitivity a)
    + Z.min (infraRisk (digitalInfrastructure a)) 3
    + governanceModifier (governanceMaturity a).
Proof.
  unfold tierScore, sizeWeight, sensitivityWeight, governanceModifier.
  rewrite !strictEq_decide.
  generalize (Z.min (infraRisk (digitalInfrastructure a)) 3); intros cap.
  repeat case_bool_decide; repeat case_decide; congruence || lia.
Qed.

Lemma tierFor_level (a : Answers) :
  tierLevel (tierFor a)
  = if 6 <=? tierScore a then 3 else if 4 <=? tierScore a then 2 else 1.
Proof.
  unfold tierFor.
  destruct (6 <=? tierScore a); [reflexivity|].
  destruct (4 <=? tierScore a); reflexivity.
Qed.

Lemma tierLevel_monotone (a b : Answers) :
  tierScore a <= tierScore b -> tierLevel (tierFor a) <= tierLevel (tierFor b).
Proof.
  intros Hle. rewrite !tierFor_level.
  destruct (Z.leb_spec 6 (tierScore a)), (Z.leb_spec 6 (tierScore b)),
    (Z.leb_spec 4 (tierScore a)), (Z.leb_spec 4 (tierScore b)); lia.
Qed.

Lemma tierFor_names (a : Answers) : tierFor a ∈ tierNames.
Proof.
  unfold tierFor, tierNames.
  destruct (6 <=? tierScore a); [set_solver|].
  destruct (4 <=? tierScore a); set_solver.
Qed.

Lemma calculateTier_run (w : World) :
  calculateTier w = (Normal (tierFor (answers (state w))), w).
Proof. reflexivity. Qed.

(** C1. For every answer record, the score computed by [calculateTier] is a
    sum of fixed integer weights: the entity size contributes 3 for large, 2
    for medium and 1 for small or anything else; the service sensitivity
    contributes 3 for high, 2 for medium and 1 for low or anything else; the
    governance maturity adds +2 for none, +1 for basic, -1 for structured, -2
    for iso and 0 for anything else; the remaining summand is the capped
    infrastructure risk. *)
Theorem tierScore_sum_of_weights (a : Answers) :
  tierScore a
  = sizeWeight (entitySize a) + sensitivityWeight (serviceSensitivity a)
    + Z.min (infraRisk (digitalInfrastructure a)) 3
    + governanceModifier (governanceMaturity a).
Proof. exact (tierScore_weights a). Qed.

(** C2. For every combination of the four infrastructure booleans, the
    subtotal [infraRisk] adds 1 for cloud, 2 for missing MFA, 2 for a missing
    incident process and 1 for supply-chain dependency, and the score receives
    [min(infraRisk, 3)]; when the naive sum exceeds 3 the contribution is
    exactly 3, as for no MFA, no incident process and cloud (sum 5,
    contribution 3). *)
Theorem infraRisk_capped_contribution (a : Answers) :
  let d := digitalInfrastructure a in
  let others :=
    sizeWeight (entitySize a) + sensitivityWeight (serviceSensitivity a)
    + governanceModifier (governanceMaturity a) in
  infraRisk d = naiveInfraSum d /\
  tierScore a = others + Z.min (naiveInfraSum d) 3 /\
  (3 < naiveInfraSum d -> tierScore a = others + 3) /\
  naiveInfraSum cappedInfra = 5 /\
  tierScore (setDigitalInfrastructure a cappedInfra) = others + 3.
Proof.
  intros d others. subst d others.
  pose proof (infraRisk_naive (digitalInfrastructure a)) as Hrisk.
  pose proof (tierScore_weights a) as Hsum.
  repeat split.
  - exact Hrisk.
  - rewrite Hsum, Hrisk. lia.
  - intros Hover. rewrite Hsum, Hrisk. lia.
  - rewrite tierScore_weights. unfold setDigitalInfrastructure.
    cbn [entitySize serviceSensitivity digitalInfrastructure governanceMaturity].
    change (infraRisk cappedInfra) with 5. lia.
Qed.

Lemma infraRisk_capped_contribution_witness :
  tierScore scenarioB
  = sizeWeight (entitySize scenarioB)
    + sensitivityWeight (serviceSensitivity scenarioB)
    + governanceModifier (governanceMaturity scenarioB) + 3.
Proof.
  apply (proj1 (proj2 (proj2 (infraRisk_capped_contribution scenarioB)))).
  vm_compute. reflexivity.
Defined.

(** C3. The tier is chosen from the final score by inclusive lower bounds:
    6 and above gives tier 3, 4 and 5 give tier 2, anything below 4 gives
    tier 1; in particular score 6 gives tier 3, 5 and 4 give tier 2 and 3
    gives tier 1. *)
Theorem calculateTier_thresholds (w : World) :
  let score := tierScore (answers (state w)) in
  (6 <= score -> calculateTier w = (Normal "tier-3", w)) /\
  (4 <= score < 6 -> calculateTier w = (Normal "tier-2", w)) /\
  (score < 4 -> calculateTier w = (Normal "tier-1", w)) /\
  (score = 6 -> calculateTier w = (Normal "tier-3", w)) /\
  (score = 5 -> calculateTier w = (Normal "tier-2", w)) /\
  (score = 4 -> calculateTier w = (Normal "tier-2", w)) /\
  (score = 3 -> calculateTier w = (Normal "tier-1", w)).
Proof.
  intros score. rewrite calculateTier_run. unfold tierFor. fold score.
  repeat split; intros Hs;
    destruct (Z.leb_spec 6 score); try lia;
    destruct (Z.leb_spec 4 score); try lia; reflexivity.
Qed.

Lemma calculateTier_thresholds_witness :
  calculateTier (sessionWith score6) = (Normal "tier-3", sessionWith score6) /\
  calculateTier (sessionWith score5) = (Normal "tier-2", sessionWith score5) /\
  calculateTier (sessionWith score4) = (Normal "tier-2", sessionWith score4) /\
  calculateTier (sessionWith score3) = (Normal "tier-1", sessionWith score3).
Proof.
  pose proof (calculateTier_thresholds (sessionWith score6)) as (_ & _ & _ & H6 & _).
  pose proof (calculateTier_thresholds (sessionWith score5)) as (_ & H5 & _).
  pose proof (calculateTier_thresholds (sessionWith score4)) as (_ & H4 & _).
  pose proof (calculateTier_thresholds (sessionWith score3)) as (_ & _ & H3 & _).
  split; [apply H6; reflexivity|].
  split; [apply H5; vm_compute; split; [discriminate|reflexivity]|].
  split; [apply H4; vm_compute; split; [discriminate|reflexivity]|].
  apply H3; reflexivity.
Defined.

(** C4. Scenario A (large, high, MFA and incident process in place, no cloud,
    no supply chain, iso) scores 3+3+0-2 = 4 and is tier 2; scenario B
    (small, low, no MFA, no incident process, cloud, supply chain, none)
    scores 1+1+3+2 = 7 and is tier 3. *)
Theorem scenarios_A_and_B (n : Z) (d : Dom) (ts : list Task) :
  let wA := {| state := {| step := n; answers := scenarioA |};
               document := d; timers := ts |} in
  let wB := {| state := {| step := n; answers := scenarioB |};
               document := d; timers := ts |} in
  sizeWeight (entitySize scenarioA) = 3 /\
  sensitivityWeight (serviceSensitivity scenarioA) = 3 /\
  Z.min (infraRisk (digitalInfrastructure scenarioA)) 3 = 0 /\
  governanceModifier (governanceMaturity scenarioA) = -2 /\
  tierScore scenarioA = 4 /\
  calculateTier wA = (Normal "tier-2", wA) /\
  sizeWeight (entitySize scenarioB) = 1 /\
  sensitivityWeight (serviceSensitivity scenarioB) = 1 /\
  Z.min (infraRisk (digitalInfrastructure scenarioB)) 3 = 3 /\
  governanceModifier (governanceMaturity scenarioB) = 2 /\
  tierScore scenarioB = 7 /\
  calculateTier wB = (Normal "tier-3", wB).
Proof.
  intros wA wB. subst wA wB. rewrite !calculateTier_run.
  repeat split; reflexivity.
Qed.

(** C5. On every record whose three choices are among the offered values,
    with any of the 16 check-box combinations, [calculateTier] completes
    without an error, leaves the world (and so the record) as it found it,
    returns one of the three tier names, and returns the same name in any
    other world holding an equal record. *)
Theorem calculateTier_deterministic_total (w1 w2 : World) :
  fullySet (answers (state w1)) ->
  answers (state w2) = answers (state w1) ->
  exists tier,
    tier ∈ tierNames /\
    calculateTier w1 = (Normal tier, w1) /\
    calculateTier w2 = (Normal tier, w2).
Proof.
  intros _ Hsame.
  exists (tierFor (answers (state w1))).
  split; [apply tierFor_names|].
  split; [apply calculateTier_run|].
  rewrite calculateTier_run. now rewrite Hsame.
Qed.

Lemma calculateTier_deterministic_total_witness :
  exists tier,
    tier ∈ tierNames /\
    calculateTier (sessionWith scenarioA) = (Normal tier, sessionWith scenarioA) /\
    calculateTier (run (enter scenarioA) (loadScript (examplePage quietInfra)))
    = (Normal tier, run (enter scenarioA) (loadScript (examplePage quietInfra))).
Proof.
  apply (calculateTier_deterministic_total (sessionWith scenarioA)
           (run (enter scenarioA) (loadScript (examplePage quietInfra)))).
  - unfold fullySet. simpl. repeat split; set_solver.
  - vm_compute. reflexivity.
Defined.

(** C6. With every other answer fixed, moving the entity size up the order
    small, medium, large never decreases the score and never lowers the
    tier; the same holds for the service sensitivity along low, medium,
    high. *)
Theorem tierScore_monotone (a : Answers) (v v' : string) :
  (sizeUp v v' ->
     tierScore (setEntitySize a v) <= tierScore (setEntitySize a v') /\
     tierLevel (tierFor (setEntitySize a v))
     <= tierLevel (tierFor (setEntitySize a v'))) /\
  (sensitivityUp v v' ->
     tierScore (setServiceSensitivity a v)
     <= tierScore (setServiceSensitivity a v') /\
     tierLevel (tierFor (setServiceSensitivity a v))
     <= tierLevel (tierFor (setServiceSensitivity a v'))).
Proof.
  split; intros Hup.
  - assert (tierScore (setEntitySize a v) <= tierScore (setEntitySize a v'))
      as Hscore.
    { rewrite !tierScore_weights. unfold setEntitySize.
      cbn [entitySize serviceSensitivity digitalInfrastructure governanceMaturity].
      inversion Hup; subst; unfold sizeWeight;
        repeat case_decide; congruence || lia. }
    split; [exact Hscore | now apply tierLevel_monotone].
  - assert (tierScore (setServiceSensitivity a v)
            <= tierScore (setServiceSensitivity a v')) as Hscore.
    { rewrite !tierScore_weights. unfold setServiceSensitivity.
      cbn [entitySize serviceSensitivity digitalInfrastructure governanceMaturity].
      inversion Hup; subst; unfold sensitivityWeight;
        repeat case_decide; congruence || lia. }
    split; [exact Hscore | now apply tierLevel_monotone].
Qed.

Lemma tierScore_monotone_witness :
  (tierScore (setEntitySize scenarioB "small")
   <= tierScore (setEntitySize scenarioB "large") /\
   tierLevel (tierFor (setEntitySize scenarioB "small"))
   <= tierLevel (tierFor (setEntitySize scenarioB "large"))) /\
  (tierScore (setServiceSensitivity scenarioB "low")
   <= tierScore (setServiceSensitivity scenarioB "medium") /\
   tierLevel (tierFor (setServiceSensitivity scenarioB "low"))
   <= tierLevel (tierFor (setServiceSensitivity scenarioB "medium"))).
Proof.
  split.
  - apply (proj1 (tierScore_monotone scenarioB "small" "large")). constructor.
  - apply (proj2 (tierScore_monotone scenarioB "low" "medium")). constructor.
Defined.

(** C10. [calculateTier] also completes on an incomplete record: an unset
    entity size counts 1, an unset service sensitivity counts 1 and an unset
    governance maturity counts 0, so the call made before any answer is
    given raises nothing and still returns one of the three tier names. *)
Theorem calculateTier_unset_defaults (w : World) :
  let a := answers (state w) in
  let cap := Z.min (infraRisk (digitalInfrastructure a)) 3 in
  (entitySize a = None ->
     tierScore a
     = 1 + sensitivityWeight (serviceSensitivity a) + cap
       + governanceModifier (governanceMaturity a)) /\
  (serviceSensitivity a = None ->
     tierScore a
     = sizeWeight (entitySize a) + 1 + cap
       + governanceModifier (governanceMaturity a)) /\
  (governanceMaturity a = None ->
     tierScore a
     = sizeWeight (entitySize a) + sensitivityWeight (serviceSensitivity a)
       + cap + 0) /\
  exists tier, tier ∈ tierNames /\ calculateTier w = (Normal tier, w).
Proof.
  intros a cap. subst cap.
  split; [|split; [|split]].
  - intros Hnull. rewrite tierScore_weights, Hnull. reflexivity.
  - intros Hnull. rewrite tierScore_weights, Hnull. reflexivity.
  - intros Hnull. rewrite tierScore_weights, Hnull. reflexivity.
  - exists (tierFor a). split; [apply tierFor_names | apply calculateTier_run].
Qed.

Lemma calculateTier_unset_defaults_witness :
  tierScore initialAnswers = 1 + 1 + 3 + 0 /\
  calculateTier (loadScript (examplePage quietInfra))
  = (Normal "tier-2", loadScript (examplePage quietInfra)).
Proof.
  pose proof (calculateTier_unset_defaults (loadScript (examplePage quietInfra)))
    as (Hsize & _ & _ & _).
  split.
  - exact (Hsize eq_refl).
  - reflexivity.
Defined.

(** ** Navigation *)

Lemma steps_present (d : Dom) (k : Z) :
  pageHasSteps d = true -> 1 <= k <= 5 -> is_Some (steps d k).
Proof.
  unfold pageHasSteps. intros Hall Hk.
  rewrite forallb_forall in Hall.
  assert (In k stepKeys) as Hin.
  { assert (k = 1 \/ k = 2 \/ k = 3 \/ k = 4 \/ k = 5) as Hcases by lia.
    unfold stepKeys. simpl. intuition auto. }
  specialize (Hall k Hin). now apply bool_decide_eq_true in Hall.
Qed.

Lemma steps_stepEls (d : Dom) (k : Z) :
  is_Some (steps d k) -> is_Some (stepEls d !! k).
Proof.
  unfold steps. destruct ((1 <=? k) && (k <=? 5)); [tauto|].
  intros [x Hx]. discriminate.
Qed.

(** What [goToStep] leaves behind, by whether [steps] has the target. *)
Lemma goToStep_run (n : Z) (w : World) :
  goToStep n w
  = (Normal tt,
     let hidden := hideSteps (stepEls (document w)) in
     match steps (document w) n with
     | Some _ =>
         {| state := {| step := n; answers := answers (state w) |};
            document := withStepEls (document w) (<[n := true]> hidden);
            timers := timers w |}
     | None =>
         {| state := state w;
            document := withStepEls (document w) hidden;
            timers := timers w |}
     end).
Proof.
  unfold goToStep, bind, getDom, putDom, getState, putState, ret. simpl.
  destruct (steps (document w) n); reflexivity.
Qed.

Lemma goToStep_answers (n : Z) (w : World) :
  answers (state (snd (goToStep n w))) = answers (state w).
Proof.
  rewrite goToStep_run. simpl.
  destruct (steps (document w) n); reflexivity.
Qed.

Lemma goToStep_step (n : Z) (w : World) :
  is_Some (steps (document w) n) -> step (state (snd (goToStep n w))) = n.
Proof.
  intros [el Hel]. rewrite goToStep_run. simpl. now rewrite Hel.
Qed.

Lemma selectOption_answers (w : World) (value : string) :
  answers (state (snd (selectOption 1 value w)))
  = setEntitySize (answers (state w)) value /\
  answers (state (snd (selectOption 2 value w)))
  = setServiceSensitivity (answers (state w)) value /\
  answers (state (snd (selectOption 4 value w)))
  = setGovernanceMaturity (answers (state w)) value.
Proof.
  unfold selectOption, updateSelectionUI, bind, getState, getDom, putAnswers,
    putState, putDom, setTimeout, deref. simpl.
  repeat split.
  - destruct (stepEls (document w) !! 1); reflexivity.
  - destruct (stepEls (document w) !! 2); reflexivity.
  - destruct (stepEls (document w) !! 4); reflexivity.
Qed.

Lemma selectOption_keeps (n : Z) (value : string) (w : World) :
  step (state (snd (selectOption n value w))) = step (state w) /\
  stepEls (document (snd (selectOption n value w))) = stepEls (document w).
Proof.
  unfold selectOption, updateSelectionUI, bind, getState, getDom, putAnswers,
    putState, putDom, setTimeout, deref.
  destruct (n =? 1); [|destruct (n =? 2); [|destruct (n =? 4)]]; simpl.
  - destruct (stepEls (document w) !! 1); split; reflexivity.
  - destruct (stepEls (document w) !! 2); split; reflexivity.
  - destruct (stepEls (document w) !! 4); split; reflexivity.
  - split; reflexivity.
Qed.

Lemma selectOption_completes (n : Z) (value : string) (w : World) :
  is_Some (stepEls (document w) !! n) ->
  fst (selectOption n value w) = Normal tt.
Proof.
  intros [el Hel].
  unfold selectOption, updateSelectionUI, bind, getState, getDom, putAnswers,
    putState, putDom, setTimeout, deref.
  destruct (Z.eqb_spec n 1) as [->|_]; [simpl; now rewrite Hel|].
  destruct (Z.eqb_spec n 2) as [->|_]; [simpl; now rewrite Hel|].
  destruct (Z.eqb_spec n 4) as [->|_]; [simpl; now rewrite Hel|].
  reflexivity.
Qed.

Lemma fireTimer_answers (w : World) :
  answers (state (snd (fireTimer w))) = answers (state w).
Proof.
  unfold fireTimer. destruct (timers w) as [|t ts]; [reflexivity|].
  destruct t as [n|]; simpl.
  - now rewrite goToStep_answers.
  - unfold calculateAndShowResults, generateResults, calculateTier, bind,
      getState, getDom, putDom, deref, ret, throw. simpl.
    destruct (tiers _); simpl; [|reflexivity].
    destruct (tierBadge (document w)); simpl; [|reflexivity].
    destruct (resultContent (document w)); simpl; [|reflexivity].
    now rewrite goToStep_answers.
Qed.

(** ** Invariants of a session *)

Lemma hideSteps_dom (m : gmap Z bool) : dom (hideSteps m) = dom m.
Proof. unfold hideSteps, stepKeys. simpl. now rewrite !dom_alter_L. Qed.

Lemma goToStep_dom (n : Z) (w : World) :
  dom (stepEls (document (snd (goToStep n w)))) = dom (stepEls (document w)).
Proof.
  rewrite goToStep_run. simpl.
  destruct (steps (document w) n) as [el|] eqn:Hel; simpl.
  - rewrite dom_insert_lookup_L; [apply hideSteps_dom|].
    apply elem_of_dom. rewrite hideSteps_dom.
    apply elem_of_dom, steps_stepEls. rewrite Hel. eauto.
  - apply hideSteps_dom.
Qed.

Lemma goToStep_range (n : Z) (w : World) :
  1 <= step (state w) <= 5 -> 1 <= step (state (snd (goToStep n w))) <= 5.
Proof.
  intros Hw. rewrite goToStep_run. simpl. unfold steps.
  destruct (Z.leb_spec 1 n), (Z.leb_spec n 5); simpl; try exact Hw.
  destruct (stepEls (document w) !! n); simpl; [lia | exact Hw].
Qed.

Lemma goToStep_invariant (n : Z) (w0 w : World) :
  sessionInvariant w0 w -> sessionInvariant w0 (snd (goToStep n w)).
Proof.
  intros [Hrange Hdom]. split.
  - now apply goToStep_range.
  - now rewrite goToStep_dom.
Qed.

Lemma handle_invariant (e : Event) (w0 w : World) :
  sessionInvariant w0 w -> sessionInvariant w0 (snd (handle e w)).
Proof.
  intros Hinv.
  destruct e as [n value| |currentStep| |]; cbn [handle].
  - destruct Hinv as [Hrange Hdom]. unfold sessionInvariant.
    destruct (selectOption_keeps n value w) as [Hs He].
    rewrite Hs, He. now split.
  - unfold validateStep3, bind, getDom, deref, ret, throw, getState,
      putAnswers, putState.
    destruct (cloudInfra (document w)), (mfaEnabled (document w)),
      (incidentProcessBox (document w)), (supplyChainBox (document w));
      simpl; try exact Hinv.
    now apply goToStep_invariant.
  - unfold goBack. destruct (1 <? currentStep); [|exact Hinv].
    now apply goToStep_invariant.
  - unfold restartAssessment, bind, putAnswers, getState, putState, getDom,
      putDom. simpl.
    now apply goToStep_invariant.
  - unfold fireTimer. destruct (timers w) as [|t ts]; [exact Hinv|].
    destruct t as [n|]; simpl.
    + now apply goToStep_invariant.
    + unfold calculateAndShowResults, generateResults, calculateTier, bind,
        getState, getDom, putDom, deref, ret, throw. simpl.
      destruct (tiers _); simpl; [|exact Hinv].
      destruct (tierBadge (document w)); simpl; [|exact Hinv].
      destruct (resultContent (document w)); simpl; [|exact Hinv].
      now apply goToStep_invariant.
Qed.

Lemma run_invariant (es : list Event) (w0 w : World) :
  sessionInvariant w0 w -> sessionInvariant w0 (run es w).
Proof.
  revert w. induction es as [|e es IH]; intros w Hinv; simpl.
  - exact Hinv.
  - apply IH. now apply handle_invariant.
Qed.

Lemma pageHasSteps_dom (d d' : Dom) :
  dom (stepEls d') = dom (stepEls d) -> pageHasSteps d' = pageHasSteps d.
Proof.
  intros Hdom. unfold pageHasSteps, stepKeys, steps. simpl.
  repeat f_equal; apply bool_decide_ext;
    now rewrite <- !elem_of_dom, Hdom.
Qed.

(** X26. Whatever events arrive, in whatever order and with whatever
    arguments, every world reached from a freshly loaded script keeps
    [state.step] between 1 and 5 and keeps the step elements the page came
    with. *)
Lemma session_keeps_steps (page : Dom) (es : list Event) :
  let w := run es (loadScript page) in
  1 <= step (state w) <= 5 /\ pageHasSteps (document w) = pageHasSteps page.
Proof.
  intros w. subst w.
  set (w0 := {| state := initialState; document := page; timers := [] |}).
  assert (sessionInvariant w0 (run es (loadScript page))) as [Hrange Hdom].
  { apply run_invariant. unfold loadScript. fold w0.
    apply goToStep_invariant. split; [simpl; lia | reflexivity]. }
  split; [exact Hrange | now apply pageHasSteps_dom].
Qed.

Lemma restartAssessment_run (w : World) :
  restartAssessment w
  = goToStep 1
      {| state := {| step := step (state w); answers := initialAnswers |};
         document := resetUI (document w);
         timers := timers w |}.
Proof. reflexivity. Qed.

Lemma loadScript_state (page : Dom) : state (loadScript page) = initialState.
Proof.
  unfold loadScript. rewrite goToStep_run. simpl.
  destruct (steps page 1); reflexivity.
Qed.

Lemma resetUI_deselects (d : Dom) :
  Forall (fun c => selected c = false) (optionCards (resetUI d)).
Proof.
  simpl. induction (optionCards d) as [|c cs IH]; simpl; constructor;
    [reflexivity | exact IH].
Qed.

(** C7. From any state, [restartAssessment] completes and stores the record
    with the three choices unset and the four booleans false, and no option
    card stays selected; on a page that has its step elements it also sets
    the step to 1, so that [state] is that of a freshly loaded script and
    nothing of the earlier answers is carried over. *)
Theorem restartAssessment_resets (w : World) :
  exists w',
    restartAssessment w = (Normal tt, w') /\
    answers (state w') = initialAnswers /\
    Forall (fun c => selected c = false) (optionCards (document w')) /\
    (pageHasSteps (document w) = true ->
       step (state w') = 1 /\
       state w' = initialState /\
       state w' = state (loadScript (document w))).
Proof.
  exists (snd (restartAssessment w)).
  rewrite restartAssessment_run.
  split; [rewrite goToStep_run; reflexivity|].
  split; [apply goToStep_answers|].
  split.
  - rewrite goToStep_run. cbn [snd document].
    destruct (steps (resetUI (document w)) 1); apply resetUI_deselects.
  - intros Hpage.
    assert (step (state (snd (goToStep 1
              {| state := {| step := step (state w); answers := initialAnswers |};
                 document := resetUI (document w);
                 timers := timers w |}))) = 1) as Hstep.
    { apply goToStep_step. cbn [document].
      apply (steps_present (document w) 1 Hpage). lia. }
    assert (state (snd (goToStep 1
              {| state := {| step := step (state w); answers := initialAnswers |};
                 document := resetUI (document w);
                 timers := timers w |})) = initialState) as Hstate.
    { pose proof (goToStep_answers 1
        {| state := {| step := step (state w); answers := initialAnswers |};
           document := resetUI (document w);
           timers := timers w |}) as Hanswers.
      cbn [state answers] in Hanswers.
      destruct (state (snd (goToStep 1 _))) as [n a].
      cbn [step answers] in *. subst. reflexivity. }
    split; [exact Hstep|]. split; [exact Hstate|].
    now rewrite loadScript_state.
Qed.

Lemma restartAssessment_resets_witness :
  exists w',
    restartAssessment (sessionWith scenarioB) = (Normal tt, w') /\
    answers (state w') = initialAnswers /\
    step (state w') = 1.
Proof.
  destruct (restartAssessment_resets (sessionWith scenarioB))
    as (w' & Hrun & Hanswers & _ & Hpage).
  exists w'. split; [exact Hrun|]. split; [exact Hanswers|].
  apply Hpage. reflexivity.
Defined.

(** C8. [goBack] called with a step from 2 to 5 completes and leaves every
    answer as it was, and on a page that has its step elements it moves
    [state.step] to that step minus one; called with step 1 it changes
    nothing at all. *)
Theorem goBack_previous_step (w : World) (currentStep : Z) :
  (2 <= currentStep <= 5 ->
     exists w',
       goBack currentStep w = (Normal tt, w') /\
       answers (state w') = answers (state w) /\
       (pageHasSteps (document w) = true ->
          step (state w') = currentStep - 1)) /\
  (currentStep = 1 -> goBack currentStep w = (Normal tt, w)).
Proof.
  split.
  - intros Hrange. unfold goBack.
    destruct (Z.ltb_spec 1 currentStep) as [_|Hle]; [|lia].
    exists (snd (goToStep (currentStep - 1) w)). split; [|split].
    + rewrite goToStep_run. reflexivity.
    + apply goToStep_answers.
    + intros Hpage. apply goToStep_step, steps_present; [exact Hpage | lia].
  - intros ->. reflexivity.
Qed.

Lemma goBack_previous_step_witness :
  (exists w',
     goBack 5 (run (enter scenarioA) (loadScript (examplePage quietInfra)))
     = (Normal tt, w') /\
     answers (state w') = scenarioA /\
     step (state w') = 4) /\
  goBack 1 (loadScript (examplePage quietInfra))
  = (Normal tt, loadScript (examplePage quietInfra)).
Proof.
  split.
  - destruct (proj1 (goBack_previous_step
               (run (enter scenarioA) (loadScript (examplePage quietInfra))) 5))
      as (w' & Hrun & Hanswers & Hstep); [lia|].
    exists w'. split; [exact Hrun|]. split.
    + rewrite Hanswers. vm_compute. reflexivity.
    + apply Hstep. vm_compute. reflexivity.
  - apply (goBack_previous_step (loadScript (examplePage quietInfra)) 1).
    reflexivity.
Defined.

(** C9. Two answers submitted in a row through [selectOption] for the same
    step, with no timer firing in between, leave the record holding exactly
    the second one, every other answer and the step being as before the
    first; the record is still the same once the two pending timers have
    fired, and on a page that has its step elements neither call fails. *)
Theorem selectOption_overwrites (w : World) (v v' : string) :
  let twice n := selectOption n v' (snd (selectOption n v w)) in
  (answers (state (snd (twice 1))) = setEntitySize (answers (state w)) v' /\
   entitySize (answers (state (snd (twice 1)))) = Some v') /\
  (answers (state (snd (twice 2)))
   = setServiceSensitivity (answers (state w)) v' /\
   serviceSensitivity (answers (state (snd (twice 2)))) = Some v') /\
  (answers (state (snd (twice 4)))
   = setGovernanceMaturity (answers (state w)) v' /\
   governanceMaturity (answers (state (snd (twice 4)))) = Some v') /\
  (forall n, step (state (snd (twice n))) = step (state w)) /\
  (forall n,
     answers (state (run [TimerFires; TimerFires] (snd (twice n))))
     = answers (state (snd (twice n)))) /\
  (pageHasSteps (document w) = true ->
   forall n, n = 1 \/ n = 2 \/ n = 4 ->
     fst (selectOption n v w) = Normal tt /\ fst (twice n) = Normal tt).
Proof.
  intros twice. subst twice. cbv beta.
  destruct (selectOption_answers w v) as (H1 & H2 & H4).
  destruct (selectOption_answers (snd (selectOption 1 v w)) v') as (H1' & _ & _).
  destruct (selectOption_answers (snd (selectOption 2 v w)) v') as (_ & H2' & _).
  destruct (selectOption_answers (snd (selectOption 4 v w)) v') as (_ & _ & H4').
  split; [|split; [|split; [|split; [|split]]]].
  - rewrite H1', H1. split; reflexivity.
  - rewrite H2', H2. split; reflexivity.
  - rewrite H4', H4. split; reflexivity.
  - intros n.
    rewrite (proj1 (selectOption_keeps n v' _)).
    apply selectOption_keeps.
  - intros n. unfold run. cbn [fold_left handle].
    now rewrite !fireTimer_answers.
  - intros Hpage n Hn.
    assert (is_Some (stepEls (document w) !! n)) as Hel.
    { apply steps_stepEls, steps_present; [exact Hpage | lia]. }
    split; [now apply selectOption_completes|].
    apply selectOption_completes.
    now rewrite (proj2 (selectOption_keeps n v w)).
Qed.

Lemma selectOption_overwrites_witness :
  entitySize
    (answers (state (snd (selectOption 1 "small"
       (snd (selectOption 1 "large" (loadScript (examplePage quietInfra))))))))
  = Some "small" /\
  fst (selectOption 1 "small"
         (snd (selectOption 1 "large" (loadScript (examplePage quietInfra)))))
  = Normal tt.
Proof.
  pose proof (selectOption_overwrites (loadScript (examplePage quietInfra))
                "large" "small") as ((_ & Hsize) & _ & _ & _ & _ & Hok).
  split.
  - exact Hsize.
  - apply (Hok eq_refl 1). left. reflexivity.
Defined.

(** * Further properties of the calculator *)

Lemma sizeWeight_range (v : option string) : 1 <= sizeWeight v <= 3.
Proof. unfold sizeWeight. repeat case_decide; lia. Qed.

Lemma sensitivityWeight_range (v : option string) :
  1 <= sensitivityWeight v <= 3.
Proof. unfold sensitivityWeight. repeat case_decide; lia. Qed.

Lemma governanceModifier_range (v : option string) :
  -2 <= governanceModifier v <= 2.
Proof. unfold governanceModifier. repeat case_decide; lia. Qed.

Lemma tierFor_cases (a : Answers) :
  (6 <= tierScore a /\ tierFor a = "tier-3") \/
  (4 <= tierScore a < 6 /\ tierFor a = "tier-2") \/
  (tierScore a < 4 /\ tierFor a = "tier-1").
Proof.
  unfold tierFor.
  destruct (Z.leb_spec 6 (tierScore a)); [left; split; [lia | reflexivity]|].
  destruct (Z.leb_spec 4 (tierScore a)); [right; left | right; right];
    (split; [lia | reflexivity]).
Qed.

Lemma tierScore_ext (a b : Answers) :
  tierScore a = tierScore b -> tierFor a = tierFor b.
Proof. unfold tierFor. now intros ->. Qed.

(** X1. The score always lies between 0 and 11, and both ends are reached:
    0 by a small, low-sensitivity entity with every control in place and
    iso governance, 11 by a large, high-sensitivity entity with no control
    and no governance. *)
Theorem tierScore_range (a : Answers) :
  0 <= tierScore a <= 11 /\
  tierScore (answersOf "small" "low" "iso" quietInfra) = 0 /\
  tierScore (answersOf "large" "high" "none" cappedInfra) = 11.
Proof.
  split; [|split; reflexivity].
  rewrite tierScore_weights.
  pose proof (sizeWeight_range (entitySize a)).
  pose proof (sensitivityWeight_range (serviceSensitivity a)).
  pose proof (governanceModifier_range (governanceMaturity a)).
  pose proof (infraRisk_range (digitalInfrastructure a)).
  lia.
Qed.

(** X2. With every other answer fixed, moving the governance maturity from
    iso towards structured, basic and none never decreases the score and
    never lowers the tier. *)
Theorem tierScore_governance_monotone (a : Answers) (v v' : string) :
  governanceUp v v' ->
  tierScore (setGovernanceMaturity a v)
  <= tierScore (setGovernanceMaturity a v') /\
  tierLevel (tierFor (setGovernanceMaturity a v))
  <= tierLevel (tierFor (setGovernanceMaturity a v')).
Proof.
  intros Hup.
  assert (tierScore (setGovernanceMaturity a v)
          <= tierScore (setGovernanceMaturity a v')) as Hscore.
  { rewrite !tierScore_weights. unfold setGovernanceMaturity.
    cbn [entitySize serviceSensitivity digitalInfrastructure governanceMaturity].
    destruct Hup; unfold governanceModifier;
      repeat case_decide; congruence || lia. }
  split; [exact Hscore | now apply tierLevel_monotone].
Qed.

Lemma tierScore_governance_monotone_witness :
  tierScore (setGovernanceMaturity scenarioA "iso")
  <= tierScore (setGovernanceMaturity scenarioA "none") /\
  tierLevel (tierFor (setGovernanceMaturity scenarioA "iso"))
  <= tierLevel (tierFor (setGovernanceMaturity scenarioA "none")).
Proof.
  apply (tierScore_governance_monotone scenarioA "iso" "none"). constructor.
Defined.

(** X3. With every other answer fixed, ticking the MFA box or the incident
    process box never raises the score or the tier, and ticking the cloud
    box or the supply-chain box never lowers them. *)
Theorem tierScore_infrastructure_monotone
    (a : Answers) (c m i s : bool) :
  let on d := setDigitalInfrastructure a d in
  (tierScore (on (mkInfra c true i s)) <= tierScore (on (mkInfra c false i s)) /\
   tierLevel (tierFor (on (mkInfra c true i s)))
   <= tierLevel (tierFor (on (mkInfra c false i s)))) /\
  (tierScore (on (mkInfra c m true s)) <= tierScore (on (mkInfra c m false s)) /\
   tierLevel (tierFor (on (mkInfra c m true s)))
   <= tierLevel (tierFor (on (mkInfra c m false s)))) /\
  (tierScore (on (mkInfra false m i s)) <= tierScore (on (mkInfra true m i s)) /\
   tierLevel (tierFor (on (mkInfra false m i s)))
   <= tierLevel (tierFor (on (mkInfra true m i s)))) /\
  (tierScore (on (mkInfra c m i false)) <= tierScore (on (mkInfra c m i true)) /\
   tierLevel (tierFor (on (mkInfra c m i false)))
   <= tierLevel (tierFor (on (mkInfra c m i true)))).
Proof.
  intros on. subst on. cbv beta.
  assert (forall d d',
            infraRisk d <= infraRisk d' ->
            tierScore (setDigitalInfrastructure a d)
            <= tierScore (setDigitalInfrastructure a d') /\
            tierLevel (tierFor (setDigitalInfrastructure a d))
            <= tierLevel (tierFor (setDigitalInfrastructure a d'))) as Hmono.
  { intros d d' Hrisk.
    assert (tierScore (setDigitalInfrastructure a d)
            <= tierScore (setDigitalInfrastructure a d')) as Hscore.
    { rewrite !tierScore_weights. unfold setDigitalInfrastructure.
      cbn [entitySize serviceSensitivity digitalInfrastructure
           governanceMaturity]. lia. }
    split; [exact Hscore | now apply tierLevel_monotone]. }
  repeat apply conj; apply Hmono; rewrite !infraRisk_naive;
    unfold naiveInfraSum; cbn [cloud mfa incidentProcess supplyChain];
    destruct c, m, i, s; lia.
Qed.

(** X4. Once both the MFA box and the incident process box are unticked the
    infrastructure contribution has reached its cap: the cloud and
    supply-chain boxes no longer change the score or the tier. *)
Theorem cap_masks_cloud_and_supplyChain (a : Answers) (c s c' s' : bool) :
  tierScore (setDigitalInfrastructure a (mkInfra c false false s))
  = tierScore (setDigitalInfrastructure a (mkInfra c' false false s')) /\
  tierFor (setDigitalInfrastructure a (mkInfra c false false s))
  = tierFor (setDigitalInfrastructure a (mkInfra c' false false s')).
Proof.
  assert (tierScore (setDigitalInfrastructure a (mkInfra c false false s))
          = tierScore (setDigitalInfrastructure a (mkInfra c' false false s')))
    as Hscore.
  { rewrite !tierScore_weights. unfold setDigitalInfrastructure.
    cbn [entitySize serviceSensitivity digitalInfrastructure governanceMaturity].
    rewrite !infraRisk_naive. unfold naiveInfraSum.
    cbn [cloud mfa incidentProcess supplyChain].
    destruct c, s, c', s'; reflexivity. }
  split; [exact Hscore | now apply tierScore_ext].
Qed.

(** X5. A large entity with high service sensitivity is never rated tier 1,
    whatever its check boxes and its governance maturity. *)
Theorem large_high_never_tier1 (w : World) :
  entitySize (answers (state w)) = Some "large" ->
  serviceSensitivity (answers (state w)) = Some "high" ->
  4 <= tierScore (answers (state w)) /\
  exists tier,
    calculateTier w = (Normal tier, w) /\ (tier = "tier-2" \/ tier = "tier-3").
Proof.
  intros Hsize Hsens.
  assert (4 <= tierScore (answers (state w))) as Hscore.
  { rewrite tierScore_weights, Hsize, Hsens.
    pose proof (governanceModifier_range (governanceMaturity (answers (state w)))).
    pose proof (infraRisk_range (digitalInfrastructure (answers (state w)))).
    change (sizeWeight (Some "large")) with 3.
    change (sensitivityWeight (Some "high")) with 3. lia. }
  split; [exact Hscore|].
  exists (tierFor (answers (state w))). split; [apply calculateTier_run|].
  destruct (tierFor_cases (answers (state w))) as [[_ ->]|[[_ ->]|[Hlow _]]];
    [now right | now left | lia].
Qed.

Lemma large_high_never_tier1_witness :
  4 <= tierScore scenarioA /\
  exists tier,
    calculateTier (sessionWith scenarioA) = (Normal tier, sessionWith scenarioA) /\
    (tier = "tier-2" \/ tier = "tier-3").
Proof.
  apply (large_high_never_tier1 (sessionWith scenarioA)); reflexivity.
Defined.

(** X6. An entity without MFA, without incident process and with governance
    maturity none is always rated tier 3, whatever its size, its service
    sensitivity and its other two boxes. *)
Theorem no_controls_always_tier3 (w : World) :
  mfa (digitalInfrastructure (answers (state w))) = false ->
  incidentProcess (digitalInfrastructure (answers (state w))) = false ->
  governanceMaturity (answers (state w)) = Some "none" ->
  calculateTier w = (Normal "tier-3", w).
Proof.
  intros Hmfa Hincident Hgov. rewrite calculateTier_run.
  assert (6 <= tierScore (answers (state w))) as Hscore.
  { rewrite tierScore_weights, Hgov, infraRisk_naive. unfold naiveInfraSum.
    rewrite Hmfa, Hincident.
    pose proof (sizeWeight_range (entitySize (answers (state w)))).
    pose proof (sensitivityWeight_range (serviceSensitivity (answers (state w)))).
    change (governanceModifier (Some "none")) with 2.
    destruct (cloud _), (supplyChain _); lia. }
  destruct (tierFor_cases (answers (state w))) as [[_ ->]|[[? _]|[? _]]];
    [reflexivity | lia | lia].
Qed.

Lemma no_controls_always_tier3_witness :
  calculateTier (sessionWith scenarioB) = (Normal "tier-3", sessionWith scenarioB).
Proof.
  apply (no_controls_always_tier3 (sessionWith scenarioB)); reflexivity.
Defined.

(** X7. An entity that is neither large nor medium, whose service
    sensitivity is neither high nor medium and whose governance maturity is
    iso is always rated tier 1, whatever its four boxes. *)
Theorem small_low_iso_always_tier1 (w : World) :
  entitySize (answers (state w)) <> Some "large" ->
  entitySize (answers (state w)) <> Some "medium" ->
  serviceSensitivity (answers (state w)) <> Some "high" ->
  serviceSensitivity (answers (state w)) <> Some "medium" ->
  governanceMaturity (answers (state w)) = Some "iso" ->
  calculateTier w = (Normal "tier-1", w).
Proof.
  intros Hl Hm Hh Hsm Hgov. rewrite calculateTier_run.
  assert (tierScore (answers (state w)) < 4) as Hscore.
  { rewrite tierScore_weights, Hgov.
    change (governanceModifier (Some "iso")) with (-2).
    unfold sizeWeight, sensitivityWeight. repeat case_decide; try congruence.
    lia. }
  destruct (tierFor_cases (answers (state w))) as [[? _]|[[? _]|[_ ->]]];
    [lia | lia | reflexivity].
Qed.

Lemma small_low_iso_always_tier1_witness :
  calculateTier (sessionWith score3) = (Normal "tier-1", sessionWith score3).
Proof.
  apply (small_low_iso_always_tier1 (sessionWith score3));
    try discriminate; reflexivity.
Defined.

(** * Further properties of the navigation *)

Lemma hideSteps_lookup (m : gmap Z bool) (k : Z) :
  hideSteps m !! k
  = if (1 <=? k) && (k <=? 5) then (fun _ => false) <$> m !! k else m !! k.
Proof.
  unfold hideSteps, stepKeys. simpl.
  destruct (Z.leb_spec 1 k), (Z.leb_spec k 5); simpl.
  - assert (k = 1 \/ k = 2 \/ k = 3 \/ k = 4 \/ k = 5) as Hk by lia.
    destruct Hk as [->|[->|[->|[->| ->]]]];
      repeat (rewrite lookup_alter_eq || (rewrite lookup_alter_ne by lia));
      destruct (m !! _); reflexivity.
  - repeat (rewrite lookup_alter_ne by lia). reflexivity.
  - repeat (rewrite lookup_alter_ne by lia). reflexivity.
  - lia.
Qed.

Lemma steps_Some (d : Dom) (n : Z) (el : bool) :
  steps d n = Some el -> 1 <= n <= 5 /\ stepEls d !! n = Some el.
Proof.
  unfold steps. intros Hel.
  destruct (Z.leb_spec 1 n), (Z.leb_spec n 5); simpl in Hel; try discriminate.
  split; [lia | exact Hel].
Qed.

Lemma goToStep_lookup (n : Z) (w : World) (k : Z) :
  is_Some (steps (document w) n) ->
  stepEls (document (snd (goToStep n w))) !! k
  = if (1 <=? k) && (k <=? 5)
    then (fun _ => bool_decide (k = n)) <$> stepEls (document w) !! k
    else stepEls (document w) !! k.
Proof.
  intros [el Hel]. rewrite goToStep_run. simpl. rewrite Hel. simpl.
  destruct (steps_Some _ _ _ Hel) as [Hn Hpresent].
  rewrite lookup_insert. case_decide as Hk.
  - subst k. destruct (Z.leb_spec 1 n), (Z.leb_spec n 5); try lia. simpl.
    rewrite Hpresent. simpl. now rewrite bool_decide_eq_true_2.
  - rewrite hideSteps_lookup.
    destruct ((1 <=? k) && (k <=? 5)); [|reflexivity].
    destruct (stepEls (document w) !! k); [|reflexivity]. simpl.
    rewrite bool_decide_eq_false_2; [reflexivity | congruence].
Qed.

Lemma goToStep_pageHasSteps (n : Z) (w : World) :
  pageHasSteps (document (snd (goToStep n w))) = pageHasSteps (document w).
Proof. apply pageHasSteps_dom, goToStep_dom. Qed.

Lemma goToStep_shows (n : Z) (w : World) :
  pageHasSteps (document w) = true -> 1 <= n <= 5 ->
  shows (document (snd (goToStep n w))) n.
Proof.
  intros Hpage Hn k Hk.
  rewrite goToStep_lookup by now apply steps_present.
  destruct (Z.leb_spec 1 k), (Z.leb_spec k 5); try lia. simpl.
  destruct (steps_stepEls _ _ (steps_present _ k Hpage Hk)) as [el ->].
  reflexivity.
Qed.

(** X8. On a page that has its five step elements, [goToStep] to a step
    from 1 to 5 completes, records the step in [state.step], leaves that
    step's element as the only active one and keeps the answers. *)
Theorem goToStep_shows_target (n : Z) (w : World) :
  pageHasSteps (document w) = true -> 1 <= n <= 5 ->
  exists w',
    goToStep n w = (Normal tt, w') /\
    step (state w') = n /\
    shows (document w') n /\
    answers (state w') = answers (state w).
Proof.
  intros Hpage Hn. exists (snd (goToStep n w)).
  split; [rewrite goToStep_run; reflexivity|].
  split; [apply goToStep_step; now apply steps_present|].
  split; [now apply goToStep_shows | apply goToStep_answers].
Qed.

Lemma goToStep_shows_target_witness :
  exists w',
    goToStep 3 (loadScript (examplePage quietInfra)) = (Normal tt, w') /\
    step (state w') = 3 /\
    shows (document w') 3 /\
    answers (state w') = answers (state (loadScript (examplePage quietInfra))).
Proof.
  apply (goToStep_shows_target 3 (loadScript (examplePage quietInfra)));
    [reflexivity | lia].
Defined.

(** X9. When [steps] has no entry for the target (a number outside 1 to 5,
    or a step whose element the page lacks), [goToStep] still completes and
    leaves [state] untouched, but the loop that hides the steps has already
    run: no entry of [steps] is active any more. *)
Theorem goToStep_missing_target (n : Z) (w : World) :
  steps (document w) n = None ->
  exists w',
    goToStep n w = (Normal tt, w') /\
    state w' = state w /\
    forall k, 1 <= k <= 5 ->
      stepEls (document w') !! k
      = (fun _ => false) <$> stepEls (document w) !! k.
Proof.
  intros Hnone. exists (snd (goToStep n w)).
  rewrite goToStep_run. simpl. rewrite Hnone. simpl.
  split; [reflexivity|]. split; [reflexivity|].
  intros k Hk. rewrite hideSteps_lookup.
  destruct (Z.leb_spec 1 k), (Z.leb_spec k 5); try lia. reflexivity.
Qed.

Lemma goToStep_missing_target_witness :
  exists w',
    goBack 7 (loadScript (examplePage quietInfra)) = (Normal tt, w') /\
    step (state w') = 1 /\
    stepEls (document w') !! 1 = Some false.
Proof.
  destruct (goToStep_missing_target 6 (loadScript (examplePage quietInfra)))
    as (w' & Hrun & Hstate & Hhidden); [reflexivity|].
  exists w'. split; [exact Hrun|]. split.
  - now rewrite Hstate.
  - rewrite Hhidden by lia. reflexivity.
Defined.

Lemma world_eq (w w' : World) :
  state w = state w' -> document w = document w' -> timers w = timers w' ->
  w = w'.
Proof. destruct w, w'. simpl. now intros -> -> ->. Qed.

Lemma withStepEls_eq (d : Dom) (els els' : gmap Z bool) :
  els = els' -> withStepEls d els = withStepEls d els'.
Proof. now intros ->. Qed.

Lemma hideSteps_idempotent (m : gmap Z bool) :
  hideSteps (hideSteps m) = hideSteps m.
Proof.
  apply map_eq. intros k. rewrite !hideSteps_lookup.
  destruct ((1 <=? k) && (k <=? 5)); [|reflexivity].
  destruct (m !! k); reflexivity.
Qed.

Lemma hideSteps_insert (m : gmap Z bool) (n : Z) (b : bool) :
  1 <= n <= 5 -> is_Some (m !! n) ->
  hideSteps (<[n := b]> m) = hideSteps m.
Proof.
  intros Hn [el Hel]. apply map_eq. intros k. rewrite !hideSteps_lookup.
  rewrite lookup_insert. case_decide as Hk; [|reflexivity].
  subst k. rewrite Hel.
  destruct (Z.leb_spec 1 n), (Z.leb_spec n 5); try lia. reflexivity.
Qed.

(** Two navigations in a row, seen from the step elements. *)
Lemma goToStep_hide_again (m : Z) (w : World) :
  hideSteps (stepEls (document (snd (goToStep m w))))
  = hideSteps (stepEls (document w)).
Proof.
  rewrite goToStep_run. simpl.
  destruct (steps (document w) m) as [el|] eqn:Hel; simpl.
  - destruct (steps_Some _ _ _ Hel) as [Hm Hpresent].
    rewrite hideSteps_insert; [apply hideSteps_idempotent | exact Hm |].
    rewrite hideSteps_lookup, Hpresent.
    destruct ((1 <=? m) && (m <=? 5)); simpl; eauto.
  - apply hideSteps_idempotent.
Qed.

Lemma goToStep_steps (m n : Z) (w : World) :
  is_Some (steps (document (snd (goToStep m w))) n)
  <-> is_Some (steps (document w) n).
Proof.
  unfold steps. destruct ((1 <=? n) && (n <=? 5)); [|reflexivity].
  rewrite <- !elem_of_dom, goToStep_dom. reflexivity.
Qed.

Lemma goToStep_twice (m n : Z) (w : World) :
  is_Some (steps (document w) n) ->
  snd (goToStep n (snd (goToStep m w))) = snd (goToStep n w).
Proof.
  intros Hn.
  pose proof (proj2 (goToStep_steps m n w) Hn) as Hn'.
  pose proof (goToStep_hide_again m w) as Hhide.
  pose proof (goToStep_answers m w) as Hanswers.
  destruct Hn as [el Hel]. destruct Hn' as [el' Hel'].
  rewrite (goToStep_run n (snd (goToStep m w))), (goToStep_run n w).
  cbn [snd]. rewrite Hel, Hel', Hhide, Hanswers.
  rewrite goToStep_run. cbn [snd].
  destruct (steps (document w) m); reflexivity.
Qed.

(** X10. The last navigation wins: when [steps] has the second target, two
    calls of [goToStep] in a row leave the same world as the second call
    alone; in particular calling [goToStep] twice for the same step is the
    same as calling it once. *)
Theorem goToStep_last_wins (m n : Z) (w : World) :
  is_Some (steps (document w) n) ->
  snd (goToStep n (snd (goToStep m w))) = snd (goToStep n w) /\
  snd (goToStep n (snd (goToStep n w))) = snd (goToStep n w).
Proof.
  intros Hn. split; now apply goToStep_twice.
Qed.

Lemma goToStep_last_wins_witness :
  snd (goToStep 2 (snd (goToStep 4 (loadScript (examplePage quietInfra)))))
  = snd (goToStep 2 (loadScript (examplePage quietInfra))).
Proof.
  apply (goToStep_last_wins 4 2 (loadScript (examplePage quietInfra))).
  vm_compute. eauto.
Defined.

Lemma goToStep_shown (n : Z) (w : World) :
  1 <= n <= 5 -> step (state w) = n -> shows (document w) n ->
  snd (goToStep n w) = w.
Proof.
  intros Hn Hstep Hshows.
  assert (steps (document w) n = Some true) as Hel.
  { unfold steps. destruct (Z.leb_spec 1 n), (Z.leb_spec n 5); try lia. simpl.
    rewrite (Hshows n Hn). now rewrite bool_decide_eq_true_2. }
  rewrite goToStep_run. cbn [snd]. rewrite Hel.
  apply world_eq; cbn [state document timers].
  - destruct (state w) as [k a]. simpl in Hstep. now subst k.
  - assert (<[n := true]> (hideSteps (stepEls (document w)))
            = stepEls (document w)) as ->.
    { apply map_eq. intros k. rewrite lookup_insert. case_decide as Hk.
      - subst k. rewrite (Hshows n Hn). now rewrite bool_decide_eq_true_2.
      - rewrite hideSteps_lookup.
        destruct (Z.leb_spec 1 k), (Z.leb_spec k 5); simpl; try reflexivity.
        rewrite (Hshows k ltac:(lia)). simpl.
        rewrite bool_decide_eq_false_2; [reflexivity | congruence]. }
    destruct (document w); reflexivity.
  - reflexivity.
Qed.

(** X11. Going forward and back is a round trip: in a world that shows its
    current step, between 1 and 4, moving to the next step and then calling
    [goBack] from there restores the world exactly. *)
Theorem goBack_undoes_goToStep (w : World) :
  1 <= step (state w) <= 4 ->
  shows (document w) (step (state w)) ->
  snd (goBack (step (state w) + 1) (snd (goToStep (step (state w) + 1) w)))
  = w.
Proof.
  intros Hstep Hshows. unfold goBack.
  destruct (Z.ltb_spec 1 (step (state w) + 1)) as [_|Hle]; [|lia].
  replace (step (state w) + 1 - 1) with (step (state w)) by lia.
  rewrite goToStep_twice.
  - apply goToStep_shown; [lia | reflexivity | exact Hshows].
  - unfold steps.
    destruct (Z.leb_spec 1 (step (state w))),
      (Z.leb_spec (step (state w)) 5); try lia. simpl.
    rewrite (Hshows (step (state w))) by lia. eauto.
Qed.

Lemma goBack_undoes_goToStep_witness :
  snd (goBack 2 (snd (goToStep 2 (loadScript (examplePage quietInfra)))))
  = loadScript (examplePage quietInfra).
Proof.
  apply (goBack_undoes_goToStep (loadScript (examplePage quietInfra))).
  - vm_compute. split; discriminate.
  - intros k Hk.
    assert (k = 1 \/ k = 2 \/ k = 3 \/ k = 4 \/ k = 5) as Hcases by lia.
    destruct Hcases as [->|[->|[->|[->| ->]]]]; reflexivity.
Defined.

(** * Further properties of the option cards *)

Lemma selectOption_run (n : Z) (value : string) (w : World) :
  selectOption n value w
  = if (n =? 1) || (n =? 2) || (n =? 4) then
      let s := {| step := step (state w);
                  answers := answered n value (answers (state w)) |} in
      match stepEls (document w) !! n with
      | Some _ =>
          (Normal tt,
           {| state := s;
              document :=
                withOptionCards (document w)
                  (map (markCard n value) (optionCards (document w)));
              timers := (timers w ++ scheduled n)%list |})
      | None =>
          (TypeError,
           {| state := s; document := document w; timers := timers w |})
      end
    else (Normal tt, w).
Proof.
  unfold selectOption, answered, scheduled, updateSelectionUI, bind, getState,
    getDom, putAnswers, putState, putDom, setTimeout, deref.
  destruct (Z.eqb_spec n 1) as [->|H1];
    [simpl; destruct (stepEls (document w) !! 1); reflexivity|].
  destruct (Z.eqb_spec n 2) as [->|H2];
    [simpl; destruct (stepEls (document w) !! 2); reflexivity|].
  destruct (Z.eqb_spec n 4) as [->|H4];
    [simpl; destruct (stepEls (document w) !! 4); reflexivity|].
  reflexivity.
Qed.

Lemma markCard_selected (n : Z) (value : string) (cs : list Card) :
  Forall (fun c => cardStep c = n -> selected c = (dataValue c === value))
    (map (markCard n value) cs).
Proof.
  induction cs as [|c cs IH]; simpl; constructor; [|exact IH].
  unfold markCard. destruct (Z.eqb_spec (cardStep c) n); simpl; congruence.
Qed.

Lemma markCard_elsewhere (n : Z) (value : string) (cs : list Card) :
  filter (fun c => cardStep c <> n) (map (markCard n value) cs)
  = filter (fun c => cardStep c <> n) cs.
Proof.
  induction cs as [|c cs IH]; [reflexivity|].
  cbn [map]. rewrite !filter_cons, IH. unfold markCard.
  destruct (Z.eqb_spec (cardStep c) n) as [Heq|Hne]; cbn [cardStep].
  - rewrite !decide_False by tauto. reflexivity.
  - reflexivity.
Qed.

(** X12. A click on an option card of step 1, 2 or 4 whose step element is
    on the page completes, stores the value, leaves the step as it is and
    queues exactly one callback behind those already pending: the step only
    changes when that callback runs.  Among the cards of the clicked step
    exactly those carrying the clicked value end up selected; the cards of
    the other steps are as before. *)
Theorem selectOption_click (n : Z) (value : string) (w : World) :
  n = 1 \/ n = 2 \/ n = 4 ->
  is_Some (stepEls (document w) !! n) ->
  exists w',
    selectOption n value w = (Normal tt, w') /\
    answers (state w') = answered n value (answers (state w)) /\
    step (state w') = step (state w) /\
    timers w' = (timers w ++ scheduled n)%list /\
    length (scheduled n) = 1%nat /\
    Forall (fun c => cardStep c = n -> selected c = (dataValue c === value))
      (optionCards (document w')) /\
    filter (fun c => cardStep c <> n) (optionCards (document w'))
    = filter (fun c => cardStep c <> n) (optionCards (document w)).
Proof.
  intros Hn [el Hel]. rewrite selectOption_run, Hel.
  assert ((n =? 1) || (n =? 2) || (n =? 4) = true) as ->.
  { destruct Hn as [->|[->| ->]]; reflexivity. }
  eexists. split; [reflexivity|]. cbn [state answers step timers document].
  split; [reflexivity|]. split; [reflexivity|]. split; [reflexivity|].
  split; [destruct Hn as [->|[->| ->]]; reflexivity|].
  split; [apply markCard_selected | apply markCard_elsewhere].
Qed.

Lemma selectOption_click_witness :
  exists w',
    selectOption 2 "high" (loadScript (examplePage quietInfra)) = (Normal tt, w') /\
    serviceSensitivity (answers (state w')) = Some "high" /\
    step (state w') = 1 /\
    timers w' = [GoToStepTask 3].
Proof.
  destruct (selectOption_click 2 "high" (loadScript (examplePage quietInfra)))
    as (w' & Hrun & Hanswers & Hstep & Htimers & _);
    [right; left; reflexivity | vm_compute; eauto |].
  exists w'. split; [exact Hrun|].
  split; [now rewrite Hanswers|]. split; [now rewrite Hstep | exact Htimers].
Defined.

(** X13. A click on an option card of step 1, 2 or 4 whose step element is
    missing from the page stops with a [TypeError] after the value has been
    stored: the record holds the new value, but no callback is queued and
    the page is untouched, so the questionnaire does not advance. *)
Theorem selectOption_missing_step (n : Z) (value : string) (w : World) :
  n = 1 \/ n = 2 \/ n = 4 ->
  stepEls (document w) !! n = None ->
  exists w',
    selectOption n value w = (TypeError, w') /\
    answers (state w') = answered n value (answers (state w)) /\
    step (state w') = step (state w) /\
    timers w' = timers w /\
    document w' = document w.
Proof.
  intros Hn Hnone. rewrite selectOption_run, Hnone.
  assert ((n =? 1) || (n =? 2) || (n =? 4) = true) as ->.
  { destruct Hn as [->|[->| ->]]; reflexivity. }
  eexists. split; [reflexivity|]. repeat split.
Qed.

Lemma selectOption_missing_step_witness :
  exists w',
    selectOption 1 "large"
      {| state := initialState;
         document := withStepEls (examplePage quietInfra) ∅;
         timers := [] |}
    = (TypeError, w') /\
    entitySize (answers (state w')) = Some "large" /\
    timers w' = [].
Proof.
  destruct (selectOption_missing_step 1 "large"
              {| state := initialState;
                 document := withStepEls (examplePage quietInfra) ∅;
                 timers := [] |})
    as (w' & Hrun & Hanswers & _ & Htimers & _);
    [left; reflexivity | reflexivity |].
  exists w'. split; [exact Hrun|].
  split; [now rewrite Hanswers | exact Htimers].
Defined.

(** * Further properties of the check boxes and the results *)

Lemma goToStep_timers (n : Z) (w : World) :
  timers (snd (goToStep n w)) = timers w.
Proof.
  rewrite goToStep_run. cbn [snd].
  destruct (steps (document w) n); reflexivity.
Qed.

(** [goToStep] touches nothing of the page but the step elements. *)
Lemma goToStep_document (n : Z) (w : World) :
  document (snd (goToStep n w))
  = withStepEls (document w) (stepEls (document (snd (goToStep n w)))).
Proof.
  rewrite goToStep_run. cbn [snd].
  destruct (steps (document w) n); reflexivity.
Qed.

Lemma validateStep3_run (w : World) :
  validateStep3 w
  = match checkedBoxes (document w) with
    | Some boxes =>
        goToStep 4
          {| state :=
               {| step := step (state w);
                  answers := setDigitalInfrastructure (answers (state w)) boxes |};
             document := document w;
             timers := timers w |}
    | None => (TypeError, w)
    end.
Proof.
  unfold validateStep3, checkedBoxes, bind, getDom, deref, ret, throw, getState,
    putAnswers, putState.
  destruct (cloudInfra (document w)), (mfaEnabled (document w)),
    (incidentProcessBox (document w)), (supplyChainBox (document w));
    reflexivity.
Qed.

(** X14. On a page that has the four check boxes [validateStep3] completes,
    replaces the four booleans of the record by the boxes' [checked] values,
    keeps the three choices, and, when the page has its step elements, moves
    to step 4. *)
Theorem validateStep3_records_boxes (w : World) (boxes : DigitalInfrastructure) :
  checkedBoxes (document w) = Some boxes ->
  exists w',
    validateStep3 w = (Normal tt, w') /\
    answers (state w')
    = setDigitalInfrastructure (answers (state w)) boxes /\
    timers w' = timers w /\
    (pageHasSteps (document w) = true ->
       step (state w') = 4 /\ shows (document w') 4).
Proof.
  intros Hboxes. rewrite validateStep3_run, Hboxes.
  match goal with |- context [goToStep 4 ?x] => set (w1 := x) end.
  exists (snd (goToStep 4 w1)).
  split; [rewrite goToStep_run; reflexivity|].
  split; [now rewrite goToStep_answers|].
  split; [now rewrite goToStep_timers|].
  intros Hpage. split.
  - apply goToStep_step. cbn [document]. apply steps_present; [exact Hpage | lia].
  - apply goToStep_shows; [exact Hpage | lia].
Qed.

Lemma validateStep3_records_boxes_witness :
  exists w',
    validateStep3 (loadScript (examplePage cappedInfra)) = (Normal tt, w') /\
    digitalInfrastructure (answers (state w')) = cappedInfra /\
    step (state w') = 4.
Proof.
  destruct (validateStep3_records_boxes (loadScript (examplePage cappedInfra))
              cappedInfra)
    as (w' & Hrun & Hanswers & _ & Hstep); [reflexivity|].
  exists w'. split; [exact Hrun|]. split; [now rewrite Hanswers|].
  apply Hstep. reflexivity.
Defined.

(** X15. When any of the four check boxes is missing from the page
    [validateStep3] stops with a [TypeError] before anything is written: the
    record keeps all four earlier booleans, the step and the page are
    unchanged. *)
Theorem validateStep3_all_or_nothing (w : World) :
  checkedBoxes (document w) = None ->
  validateStep3 w = (TypeError, w).
Proof.
  intros Hboxes. now rewrite validateStep3_run, Hboxes.
Qed.

Lemma validateStep3_all_or_nothing_witness :
  validateStep3 worldWithoutSupplyChainBox
  = (TypeError, worldWithoutSupplyChainBox).
Proof.
  apply (validateStep3_all_or_nothing worldWithoutSupplyChainBox). reflexivity.
Defined.

Lemma tiers_tierFor (a : Answers) : is_Some (tiers (tierFor a)).
Proof.
  destruct (tierFor_cases a) as [[_ ->]|[[_ ->]|[_ ->]]]; simpl; eauto.
Qed.

Lemma calculateAndShowResults_run (w : World) :
  calculateAndShowResults w
  = let tier := tierFor (answers (state w)) in
    match tiers tier with
    | None => (TypeError, w)
    | Some data =>
        match tierBadge (document w) with
        | None => (TypeError, w)
        | Some _ =>
            let shown :=
              withTierBadge (document w)
                {| textContent := label data;
                   className := String.append "tier-badge " tier |} in
            match resultContent (document w) with
            | None =>
                (TypeError,
                 {| state := state w; document := shown; timers := timers w |})
            | Some _ =>
                goToStep 5
                  {| state := state w;
                     document := withResultContent shown (ResultSections data);
                     timers := timers w |}
            end
        end
    end.
Proof.
  unfold calculateAndShowResults, generateResults, calculateTier, bind,
    getState, getDom, putDom, deref, ret, throw. simpl.
  destruct (tiers _); simpl; [|reflexivity].
  destruct (tierBadge (document w)); simpl; [|reflexivity].
  destruct (resultContent (document w)); reflexivity.
Qed.

(** X16. On a page that has the badge and the result area, the results
    callback completes for every record, complete or not: the table of
    [generateResults] has an entry for each tier the calculator can return.
    The badge then carries that entry's label and the class of the
    calculated tier, the result area holds the sections of the same entry,
    the answers are untouched and, when the page has its step elements, step
    5 is shown. *)
Theorem calculateAndShowResults_shows_tier (w : World) :
  is_Some (tierBadge (document w)) ->
  is_Some (resultContent (document w)) ->
  exists w' data,
    tiers (tierFor (answers (state w))) = Some data /\
    calculateAndShowResults w = (Normal tt, w') /\
    tierBadge (document w')
    = Some {| textContent := label data;
              className :=
                String.append "tier-badge " (tierFor (answers (state w))) |} /\
    resultContent (document w') = Some (ResultSections data) /\
    answers (state w') = answers (state w) /\
    (pageHasSteps (document w) = true ->
       step (state w') = 5 /\ shows (document w') 5).
Proof.
  intros [badge Hbadge] [content Hcontent].
  destruct (tiers_tierFor (answers (state w))) as [data Hdata].
  rewrite calculateAndShowResults_run. cbv zeta.
  rewrite Hdata, Hbadge, Hcontent.
  match goal with |- context [goToStep 5 ?x] => set (w1 := x) end.
  exists (snd (goToStep 5 w1)), data. split; [reflexivity|].
  split; [rewrite goToStep_run; reflexivity|].
  split; [now rewrite goToStep_document|].
  split; [now rewrite goToStep_document|].
  split; [now rewrite goToStep_answers|].
  intros Hpage. split.
  - apply goToStep_step. cbn [document].
    apply (steps_present (document w) 5 Hpage). lia.
  - apply goToStep_shows; [exact Hpage | lia].
Qed.

Lemma calculateAndShowResults_shows_tier_witness :
  exists w',
    calculateAndShowResults (sessionWith scenarioB) = (Normal tt, w') /\
    tierBadge (document w')
    = Some {| textContent := "Exposition Critique";
              className := "tier-badge tier-3" |} /\
    step (state w') = 5.
Proof.
  destruct (calculateAndShowResults_shows_tier (sessionWith scenarioB))
    as (w' & data & Hdata & Hrun & Hbadge & _ & _ & Hstep);
    [vm_compute; eauto | vm_compute; eauto |].
  exists w'. split; [exact Hrun|]. split.
  - rewrite Hbadge. vm_compute in Hdata. injection Hdata as <-. reflexivity.
  - apply Hstep. reflexivity.
Defined.

(** X17. The results callback fails in two ways.  Without the badge it stops
    with a [TypeError] and nothing has changed.  With the badge but without
    the result area it stops with a [TypeError] after the badge has been
    rewritten: the badge already announces the new tier while the step and
    the step elements are still those of before. *)
Theorem calculateAndShowResults_failures (w : World) :
  (tierBadge (document w) = None ->
     calculateAndShowResults w = (TypeError, w)) /\
  (is_Some (tierBadge (document w)) ->
   resultContent (document w) = None ->
     exists w',
       calculateAndShowResults w = (TypeError, w') /\
       state w' = state w /\
       stepEls (document w') = stepEls (document w) /\
       resultContent (document w') = None /\
       (className <$> tierBadge (document w'))
       = Some (String.append "tier-badge " (tierFor (answers (state w))))).
Proof.
  destruct (tiers_tierFor (answers (state w))) as [data Hdata].
  split.
  - intros Hbadge. rewrite calculateAndShowResults_run. cbv zeta.
    now rewrite Hdata, Hbadge.
  - intros [badge Hbadge] Hcontent.
    rewrite calculateAndShowResults_run. cbv zeta.
    rewrite Hdata, Hbadge, Hcontent.
    eexists. split; [reflexivity|]. cbn [state document].
    repeat split. simpl. now rewrite Hcontent.
Qed.

Lemma calculateAndShowResults_failures_witness :
  exists w',
    calculateAndShowResults worldWithoutResultArea = (TypeError, w') /\
    step (state w') = 4 /\
    (className <$> tierBadge (document w')) = Some "tier-badge tier-3".
Proof.
  destruct (proj2 (calculateAndShowResults_failures worldWithoutResultArea))
    as (w' & Hrun & Hstate & _ & _ & Hclass);
    [vm_compute; eauto | reflexivity |].
  exists w'. split; [exact Hrun|]. split; [now rewrite Hstate | exact Hclass].
Defined.

(** * Further properties of a session *)

Lemma run_app (es es' : list Event) (w : World) :
  run (es ++ es') w = run es' (run es w).
Proof. unfold run. apply fold_left_app. Qed.

Lemma goToStep_state (n : Z) (w : World) :
  is_Some (steps (document w) n) ->
  state (snd (goToStep n w)) = {| step := n; answers := answers (state w) |}.
Proof.
  intros [el Hel]. rewrite goToStep_run. cbn [snd]. now rewrite Hel.
Qed.

Lemma goToStep_complete (n : Z) (w : World) (boxes : DigitalInfrastructure) :
  completePage (document w) boxes ->
  completePage (document (snd (goToStep n w))) boxes.
Proof.
  unfold completePage. intros (Hsteps & Hboxes & Hbadge & Hcontent).
  rewrite goToStep_pageHasSteps. split; [exact Hsteps|].
  rewrite goToStep_document. auto.
Qed.

Lemma fireTimer_timers (w : World) :
  timers (snd (fireTimer w)) = tl (timers w).
Proof.
  unfold fireTimer.
  destruct (timers w) as [|t ts] eqn:Hts; [cbn [snd]; now rewrite Hts|].
  destruct t as [n|]; cbn [runTask tl].
  - now rewrite goToStep_timers.
  - rewrite calculateAndShowResults_run. cbv zeta. cbn [state document timers].
    destruct (tiers _); [|reflexivity].
    destruct (tierBadge (document w)); [|reflexivity].
    destruct (resultContent (document w)); [|reflexivity].
    now rewrite goToStep_timers.
Qed.

Lemma goBack_answers (n : Z) (w : World) :
  answers (state (snd (goBack n w))) = answers (state w).
Proof.
  unfold goBack. destruct (1 <? n); [apply goToStep_answers | reflexivity].
Qed.

(** X18. Going back and the queued callbacks never alter the record: after
    any sequence of [goBack] calls and timer firings the answers are those
    of before. *)
Theorem navigation_keeps_answers (es : list Event) (w : World) :
  forallb navigates es = true ->
  answers (state (run es w)) = answers (state w).
Proof.
  revert w. induction es as [|e es IH]; intros w Hnav; [reflexivity|].
  cbn [forallb] in Hnav. apply andb_true_iff in Hnav as [He Hes].
  change (run (e :: es) w) with (run es (snd (handle e w))).
  rewrite IH by exact Hes.
  destruct e; try discriminate; cbn [handle].
  - apply goBack_answers.
  - apply fireTimer_answers.
Qed.

Lemma navigation_keeps_answers_witness :
  answers (state (run [GoBack 5; GoBack 4; TimerFires; GoBack 3]
                    (run (enter scenarioB) (loadScript (examplePage cappedInfra)))))
  = answers (state (run (enter scenarioB) (loadScript (examplePage cappedInfra)))).
Proof.
  apply (navigation_keeps_answers [GoBack 5; GoBack 4; TimerFires; GoBack 3]).
  reflexivity.
Defined.

(** X19. The callbacks never queue further callbacks: each firing removes
    exactly the oldest pending one, so firing as many timers as are pending
    empties the queue. *)
Theorem timers_drain (w : World) :
  timers (snd (fireTimer w)) = tl (timers w) /\
  timers (run (repeat TimerFires (length (timers w))) w) = [].
Proof.
  split; [apply fireTimer_timers|].
  remember (length (timers w)) as n eqn:Hn.
  revert w Hn. induction n as [|n IH]; intros w Hn.
  - cbn [repeat]. change (run [] w) with w.
    destruct (timers w); [reflexivity | discriminate].
  - cbn [repeat].
    change (run (TimerFires :: repeat TimerFires n) w)
      with (run (repeat TimerFires n) (snd (fireTimer w))).
    apply IH. rewrite fireTimer_timers.
    destruct (timers w); [discriminate | simpl in *; congruence].
Qed.

Lemma goToStep_display (n : Z) (w : World) :
  pageHasSteps (document w) = true -> 1 <= n <= 5 ->
  pageHasSteps (document (snd (goToStep n w))) = true /\
  timers (snd (goToStep n w)) = timers w /\
  shows (document (snd (goToStep n w))) (step (state (snd (goToStep n w)))).
Proof.
  intros Hpage Hn.
  rewrite goToStep_pageHasSteps, goToStep_timers.
  rewrite (goToStep_step n w) by now apply steps_present.
  split; [exact Hpage|]. split; [reflexivity | now apply goToStep_shows].
Qed.

Lemma scheduled_within (n : Z) : forallb taskWithinSteps (scheduled n) = true.
Proof.
  unfold scheduled.
  destruct (n =? 1); [reflexivity|].
  destruct (n =? 2); [reflexivity|].
  destruct (n =? 4); reflexivity.
Qed.

Lemma handle_display (e : Event) (w : World) :
  backWithinSteps e = true ->
  pageHasSteps (document w) = true ->
  forallb taskWithinSteps (timers w) = true ->
  shows (document w) (step (state w)) ->
  pageHasSteps (document (snd (handle e w))) = true /\
  forallb taskWithinSteps (timers (snd (handle e w))) = true /\
  shows (document (snd (handle e w))) (step (state (snd (handle e w)))).
Proof.
  intros Hback Hpage Htimers Hshows.
  assert (forall n w1,
            1 <= n <= 5 -> document w1 = document w ->
            forallb taskWithinSteps (timers w1) = true ->
            pageHasSteps (document (snd (goToStep n w1))) = true /\
            forallb taskWithinSteps (timers (snd (goToStep n w1))) = true /\
            shows (document (snd (goToStep n w1)))
              (step (state (snd (goToStep n w1))))) as Hgo.
  { intros n w1 Hn Hdoc Ht.
    destruct (goToStep_display n w1) as (H1 & H2 & H3);
      [now rewrite Hdoc | exact Hn |].
    rewrite H2. auto. }
  destruct e as [n value| |currentStep| |]; cbn [handle].
  - destruct (selectOption_keeps n value w) as [Hstep Hels].
    unfold shows. rewrite Hstep, Hels.
    split; [rewrite <- Hpage; apply pageHasSteps_dom; now rewrite Hels|].
    split; [|exact Hshows].
    rewrite selectOption_run.
    destruct ((n =? 1) || (n =? 2) || (n =? 4)); [|exact Htimers].
    destruct (stepEls (document w) !! n); cbn [snd timers]; [|exact Htimers].
    rewrite forallb_app, Htimers. apply scheduled_within.
  - rewrite validateStep3_run.
    destruct (checkedBoxes (document w)); [|auto].
    apply Hgo; [lia | reflexivity | exact Htimers].
  - unfold goBack. cbn [backWithinSteps] in Hback.
    destruct (Z.ltb_spec 1 currentStep); [|auto].
    apply Hgo; [|reflexivity | exact Htimers].
    apply Z.leb_le in Hback. lia.
  - rewrite restartAssessment_run.
    destruct (goToStep_display 1
      {| state := {| step := step (state w); answers := initialAnswers |};
         document := resetUI (document w);
         timers := timers w |}) as (H1 & H2 & H3);
      [exact Hpage | lia |].
    rewrite H2. auto.
  - unfold fireTimer.
    destruct (timers w) as [|t ts] eqn:Hqueue;
      [cbn [snd]; rewrite Hqueue; auto|].
    cbn [forallb] in Htimers. apply andb_true_iff in Htimers as [Ht Hts].
    destruct t as [n|]; cbn [runTask].
    + apply Hgo; [|reflexivity | exact Hts].
      cbn [taskWithinSteps] in Ht. apply andb_true_iff in Ht as [Hlo Hhi].
      apply Z.leb_le in Hlo, Hhi. lia.
    + rewrite calculateAndShowResults_run. cbv zeta. cbn [state document timers].
      destruct (tiers _); [|auto].
      destruct (tierBadge (document w)); [|auto].
      destruct (resultContent (document w)); [|auto].
      destruct (goToStep_display 5
        {| state := state w;
           document :=
             withResultContent
               (withTierBadge (document w)
                  {| textContent := label t;
                     className :=
                       String.append "tier-badge "
                         (tierFor (answers (state w))) |})
               (ResultSections t);
           timers := ts |}) as (H1 & H2 & H3);
        [exact Hpage | lia |].
      rewrite H2. auto.
Qed.

(** X20. What the page shows is what [state.step] says: on a page that has
    its five step elements, after any sequence of clicks, validations,
    restarts, timer firings and [goBack] calls with arguments up to 6, the
    element of the current step is the only active one among the five. *)
Theorem session_shows_current_step (page : Dom) (es : list Event) :
  pageHasSteps page = true ->
  forallb backWithinSteps es = true ->
  shows (document (run es (loadScript page)))
    (step (state (run es (loadScript page)))).
Proof.
  intros Hpage Hes.
  assert (pageHasSteps (document (loadScript page)) = true /\
          forallb taskWithinSteps (timers (loadScript page)) = true /\
          shows (document (loadScript page)) (step (state (loadScript page))))
    as Hstart.
  { unfold loadScript.
    destruct (goToStep_display 1
      {| state := initialState; document := page; timers := [] |})
      as (H1 & H2 & H3); [exact Hpage | lia |].
    rewrite H2. auto. }
  revert Hstart Hes. generalize (loadScript page).
  induction es as [|e es IH]; intros w (H1 & H2 & H3) Hes; [exact H3|].
  cbn [forallb] in Hes. apply andb_true_iff in Hes as [He Hes].
  change (run (e :: es) w) with (run es (snd (handle e w))).
  apply IH; [now apply handle_display | exact Hes].
Qed.

Lemma session_shows_current_step_witness :
  shows (document (run (enter scenarioA ++ [GoBack 5; RestartAssessment])
                     (loadScript (examplePage quietInfra))))
    (step (state (run (enter scenarioA ++ [GoBack 5; RestartAssessment])
                    (loadScript (examplePage quietInfra))))).
Proof.
  apply (session_shows_current_step (examplePage quietInfra)
           (enter scenarioA ++ [GoBack 5; RestartAssessment])); reflexivity.
Defined.

(** * Further properties of a whole questionnaire *)

Lemma click_then_timer_run (n : Z) (value : string) (w : World) :
  n = 1 \/ n = 2 ->
  is_Some (stepEls (document w) !! n) ->
  timers w = [] ->
  run [SelectOption n value; TimerFires] w
  = snd (goToStep (n + 1)
           {| state := {| step := step (state w);
                          answers := answered n value (answers (state w)) |};
              document :=
                withOptionCards (document w)
                  (map (markCard n value) (optionCards (document w)));
              timers := [] |}).
Proof.
  intros Hn [el Hel] Hqueue.
  change (run [SelectOption n value; TimerFires] w)
    with (snd (fireTimer (snd (selectOption n value w)))).
  rewrite selectOption_run, Hel, Hqueue.
  destruct Hn as [-> | ->]; reflexivity.
Qed.

Lemma result_click_run (value : string) (w : World) :
  is_Some (stepEls (document w) !! 4) ->
  timers w = [] ->
  run [SelectOption 4 value; TimerFires] w
  = snd (calculateAndShowResults
           {| state := {| step := step (state w);
                          answers := setGovernanceMaturity (answers (state w)) value |};
              document :=
                withOptionCards (document w)
                  (map (markCard 4 value) (optionCards (document w)));
              timers := [] |}).
Proof.
  intros [el Hel] Hqueue.
  change (run [SelectOption 4 value; TimerFires] w)
    with (snd (fireTimer (snd (selectOption 4 value w)))).
  rewrite selectOption_run, Hel, Hqueue. reflexivity.
Qed.

Lemma click_then_timer_facts (n : Z) (value : string) (w : World) :
  n = 1 \/ n = 2 ->
  pageHasSteps (document w) = true ->
  timers w = [] ->
  state (run [SelectOption n value; TimerFires] w)
  = {| step := n + 1; answers := answered n value (answers (state w)) |} /\
  timers (run [SelectOption n value; TimerFires] w) = [] /\
  shows (document (run [SelectOption n value; TimerFires] w)) (n + 1) /\
  forall boxes,
    completePage (document w) boxes ->
    completePage (document (run [SelectOption n value; TimerFires] w)) boxes.
Proof.
  intros Hn Hpage Hqueue.
  rewrite click_then_timer_run;
    [|exact Hn | apply steps_stepEls, steps_present; [exact Hpage | lia]
     |exact Hqueue].
  split; [apply goToStep_state; cbn [document];
          apply (steps_present (document w)); [exact Hpage | lia]|].
  split; [now rewrite goToStep_timers|].
  split; [apply goToStep_shows; [exact Hpage | lia]|].
  intros boxes Hcomplete. apply goToStep_complete. exact Hcomplete.
Qed.

Lemma results_facts (w : World) :
  is_Some (tierBadge (document w)) ->
  is_Some (resultContent (document w)) ->
  pageHasSteps (document w) = true ->
  exists data,
    tiers (tierFor (answers (state w))) = Some data /\
    state (snd (calculateAndShowResults w))
    = {| step := 5; answers := answers (state w) |} /\
    timers (snd (calculateAndShowResults w)) = timers w /\
    tierBadge (document (snd (calculateAndShowResults w)))
    = Some {| textContent := label data;
              className :=
                String.append "tier-badge " (tierFor (answers (state w))) |} /\
    resultContent (document (snd (calculateAndShowResults w)))
    = Some (ResultSections data) /\
    shows (document (snd (calculateAndShowResults w))) 5.
Proof.
  intros [badge Hbadge] [content Hcontent] Hpage.
  destruct (tiers_tierFor (answers (state w))) as [data Hdata].
  exists data. split; [exact Hdata|].
  rewrite calculateAndShowResults_run. cbv zeta.
  rewrite Hdata, Hbadge, Hcontent.
  split; [rewrite goToStep_state; [reflexivity|]; cbn [document];
          apply (steps_present (document w)); [exact Hpage | lia]|].
  split; [now rewrite goToStep_timers|].
  split; [now rewrite goToStep_document|].
  split; [now rewrite goToStep_document|].
  apply goToStep_shows; [exact Hpage | lia].
Qed.

(** X21. A click on an option card of step 1 or 2 followed by its timer
    moves the session one step on: on a page that has its step elements and
    with no other callback pending, the value is stored, [state.step] is the
    next step, that step is the one shown and the queue is empty again. *)
Theorem click_then_timer_advances (n : Z) (value : string) (w : World) :
  n = 1 \/ n = 2 ->
  pageHasSteps (document w) = true ->
  timers w = [] ->
  state (run [SelectOption n value; TimerFires] w)
  = {| step := n + 1; answers := answered n value (answers (state w)) |} /\
  timers (run [SelectOption n value; TimerFires] w) = [] /\
  shows (document (run [SelectOption n value; TimerFires] w)) (n + 1).
Proof.
  intros Hn Hpage Hqueue.
  destruct (click_then_timer_facts n value w Hn Hpage Hqueue)
    as (Hstate & Htimers & Hshows & _).
  auto.
Qed.

Lemma click_then_timer_advances_witness :
  state (run [SelectOption 1 "medium"; TimerFires]
           (loadScript (examplePage quietInfra)))
  = {| step := 2; answers := setEntitySize initialAnswers "medium" |}.
Proof.
  apply (click_then_timer_advances 1 "medium"
           (loadScript (examplePage quietInfra)));
    [left; reflexivity | reflexivity | reflexivity].
Defined.

(** X22. A whole questionnaire ends on the tier of what was entered: on a
    page that has everything the script reads, loading the script, clicking
    a card in steps 1 and 2, validating step 3 and clicking a card in step
    4, each click followed by its timer, ends in step 5 with the record
    holding the three clicked values and the ticked boxes, the badge
    carrying the label and the class of the tier calculated from exactly
    that record, the result area holding that tier's sections, step 5 shown
    and no callback pending. *)
Theorem questionnaire_shows_calculated_tier
    (page : Dom) (boxes : DigitalInfrastructure)
    (size sensitivity governance : string) :
  completePage page boxes ->
  let a := {| entitySize := Some size;
              serviceSensitivity := Some sensitivity;
              digitalInfrastructure := boxes;
              governanceMaturity := Some governance |} in
  let w := run (questionnaire size sensitivity governance) (loadScript page) in
  state w = {| step := 5; answers := a |} /\
  timers w = [] /\
  shows (document w) 5 /\
  exists data,
    tiers (tierFor a) = Some data /\
    tierBadge (document w)
    = Some {| textContent := label data;
              className := String.append "tier-badge " (tierFor a) |} /\
    resultContent (document w) = Some (ResultSections data).
Proof.
  intros Hpage a w.
  (* the script is loaded *)
  assert (completePage (document (loadScript page)) boxes) as Hc0
    by (apply goToStep_complete; exact Hpage).
  assert (timers (loadScript page) = []) as Hq0
    by (unfold loadScript; now rewrite goToStep_timers).
  pose proof (loadScript_state page) as Hs0.
  (* step 1 *)
  set (w1 := run [SelectOption 1 size; TimerFires] (loadScript page)).
  destruct (click_then_timer_facts 1 size (loadScript page))
    as (Hs1 & Hq1 & _ & Hc1); [now left | apply Hc0 | exact Hq0 |].
  fold w1 in Hs1, Hq1, Hc1. specialize (Hc1 boxes Hc0). rewrite Hs0 in Hs1.
  (* step 2 *)
  set (w2 := run [SelectOption 2 sensitivity; TimerFires] w1).
  destruct (click_then_timer_facts 2 sensitivity w1)
    as (Hs2 & Hq2 & _ & Hc2); [now right | apply Hc1 | exact Hq1 |].
  fold w2 in Hs2, Hq2, Hc2. specialize (Hc2 boxes Hc1). rewrite Hs1 in Hs2.
  (* step 3 *)
  set (w3 := run [ValidateStep3] w2).
  assert (state w3
          = {| step := 4;
               answers := setDigitalInfrastructure (answers (state w2)) boxes |}
          /\ timers w3 = [] /\ completePage (document w3) boxes)
    as (Hs3 & Hq3 & Hc3).
  { subst w3. change (run [ValidateStep3] w2) with (snd (validateStep3 w2)).
    rewrite validateStep3_run.
    destruct Hc2 as (Hsteps2 & Hboxes2 & Hbadge2 & Hcontent2).
    rewrite Hboxes2.
    split; [rewrite goToStep_state; [reflexivity|]; cbn [document];
            apply (steps_present (document w2)); [exact Hsteps2 | lia]|].
    split; [now rewrite goToStep_timers|].
    apply goToStep_complete. cbn [document]. repeat split; assumption. }
  rewrite Hs2 in Hs3.
  (* step 4 and the results *)
  assert (w = run [SelectOption 4 governance; TimerFires] w3) as Hw
    by reflexivity.
  destruct Hc3 as (Hsteps3 & Hboxes3 & Hbadge3 & Hcontent3).
  rewrite result_click_run in Hw;
    [|apply steps_stepEls, steps_present; [exact Hsteps3 | lia] | exact Hq3].
  rewrite Hs3 in Hw. cbn [answers step] in Hw.
  match type of Hw with _ = snd (calculateAndShowResults ?x) =>
    destruct (results_facts x) as (data & Hdata & Hs & Hq & Hb & Hr & Hshow);
      [exact Hbadge3 | exact Hcontent3 | exact Hsteps3 |]
  end.
  rewrite <- Hw in Hs, Hq, Hb, Hr, Hshow.
  split; [exact Hs|]. split; [exact Hq|]. split; [exact Hshow|].
  exists data. split; [exact Hdata|]. split; [exact Hb | exact Hr].
Qed.

Lemma questionnaire_shows_calculated_tier_witness :
  state (run (questionnaire "small" "low" "none")
           (loadScript (examplePage cappedInfra)))
  = {| step := 5; answers := answersOf "small" "low" "none" cappedInfra |}.
Proof.
  apply (questionnaire_shows_calculated_tier (examplePage cappedInfra)
           cappedInfra "small" "low" "none").
  repeat split; vm_compute; eauto.
Defined.

(** * Further properties of the restart *)

Lemma restartAssessment_timers (w : World) :
  timers (snd (restartAssessment w)) = timers w.
Proof. rewrite restartAssessment_run. now rewrite goToStep_timers. Qed.

(** X23. [restartAssessment] does not cancel what [setTimeout] has queued:
    the pending callbacks are the same after it as before.  So when a card
    of step 4 is clicked and the restart runs before the timer, the timer
    still fires afterwards: it rates the blank record, shows tier 2 on the
    badge and moves the freshly restarted session to step 5. *)
Theorem restartAssessment_keeps_timers
    (w : World) (boxes : DigitalInfrastructure) (value : string) :
  timers (snd (restartAssessment w)) = timers w /\
  (completePage (document w) boxes ->
   timers w = [] ->
   let w' := run [SelectOption 4 value; RestartAssessment; TimerFires] w in
   state w' = {| step := 5; answers := initialAnswers |} /\
   (className <$> tierBadge (document w')) = Some "tier-badge tier-2").
Proof.
  split; [apply restartAssessment_timers|].
  intros (Hsteps & Hboxes & Hbadge & Hcontent) Hqueue w'.
  destruct (steps_present (document w) 1 Hsteps ltac:(lia)) as [el1 Hel1].
  destruct (steps_stepEls _ _ (steps_present (document w) 4 Hsteps ltac:(lia)))
    as [el4 Hel4].
  assert (exists x,
            w' = snd (calculateAndShowResults x) /\
            answers (state x) = initialAnswers /\
            is_Some (tierBadge (document x)) /\
            is_Some (resultContent (document x)) /\
            pageHasSteps (document x) = true) as (x & Hw' & Hblank & Hb & Hc & Hp).
  { eexists. split.
    - subst w'.
      change (run [SelectOption 4 value; RestartAssessment; TimerFires] w)
        with (snd (fireTimer
                     (snd (restartAssessment (snd (selectOption 4 value w)))))).
      rewrite selectOption_run, Hel4, Hqueue. cbn [orb Z.eqb Pos.eqb snd app].
      rewrite restartAssessment_run, goToStep_run.
      cbn [snd state document timers step answers].
      change (steps (resetUI ?d) 1) with (steps d 1).
      change (steps (withOptionCards ?d ?cs) 1) with (steps d 1).
      rewrite Hel1. unfold fireTimer, scheduled.
      cbn [timers Z.eqb Pos.eqb runTask]. reflexivity.
    - cbn [state answers document]. split; [reflexivity|].
      split; [exact Hbadge|]. split; [exact Hcontent|].
      rewrite <- Hsteps. apply pageHasSteps_dom. cbn [stepEls withStepEls].
      rewrite dom_insert_lookup_L; [apply hideSteps_dom|].
      apply elem_of_dom. rewrite hideSteps_dom. apply elem_of_dom.
      apply (steps_stepEls (document w) 1). rewrite Hel1. eauto. }
  destruct (results_facts x Hb Hc Hp) as (data & Hdata & Hs & _ & Hbadge' & _).
  rewrite Hblank in Hs, Hbadge', Hdata. rewrite <- Hw' in Hs, Hbadge'.
  split; [exact Hs|]. now rewrite Hbadge'.
Qed.

Lemma restartAssessment_keeps_timers_witness :
  state (run [SelectOption 4 "iso"; RestartAssessment; TimerFires]
           (sessionWith scenarioA))
  = {| step := 5; answers := initialAnswers |}.
Proof.
  apply (proj2 (restartAssessment_keeps_timers
                  (sessionWith scenarioA) quietInfra "iso")).
  - repeat split; vm_compute; eauto.
  - reflexivity.
Defined.

Lemma deselect_idempotent (cs : list Card) :
  map deselect (map deselect cs) = map deselect cs.
Proof. induction cs as [|c cs IH]; simpl; [reflexivity | now rewrite IH]. Qed.

Lemma uncheck_idempotent (o : option Checkbox) :
  uncheck (uncheck o) = uncheck o.
Proof.
  destruct o as [[c i]|]; [|reflexivity].
  destruct i; reflexivity.
Qed.

Lemma resetUI_idempotent (d : Dom) : resetUI (resetUI d) = resetUI d.
Proof.
  unfold resetUI. cbn [stepEls optionCards cloudInfra mfaEnabled
    incidentProcessBox supplyChainBox tierBadge resultContent].
  now rewrite deselect_idempotent, !uncheck_idempotent.
Qed.

Lemma goToStep_idempotent (n : Z) (w : World) :
  snd (goToStep n (snd (goToStep n w))) = snd (goToStep n w).
Proof.
  destruct (steps (document w) n) as [el|] eqn:Hel.
  - apply goToStep_twice. rewrite Hel. eauto.
  - assert (steps (document (snd (goToStep n w))) n = None) as Hel'.
    { destruct (steps (document (snd (goToStep n w))) n) eqn:Hsome;
        [|reflexivity].
      assert (is_Some (steps (document w) n)) as [x Hx]
        by (apply (goToStep_steps n n w); rewrite Hsome; eauto).
      congruence. }
    pose proof (goToStep_hide_again n w) as Hhide.
    rewrite (goToStep_run n (snd (goToStep n w))). cbn [snd].
    rewrite Hel', Hhide. rewrite goToStep_run. cbn [snd]. rewrite Hel.
    reflexivity.
Qed.

(** X24. Restarting twice is the same as restarting once: the second
    [restartAssessment] leaves the world exactly as the first left it. *)
Theorem restartAssessment_idempotent (w : World) :
  snd (restartAssessment (snd (restartAssessment w)))
  = snd (restartAssessment w).
Proof.
  rewrite (restartAssessment_run w).
  set (w1 := {| state := {| step := step (state w); answers := initialAnswers |};
                document := resetUI (document w);
                timers := timers w |}).
  rewrite restartAssessment_run.
  assert ({| state := {| step := step (state (snd (goToStep 1 w1)));
                         answers := initialAnswers |};
             document := resetUI (document (snd (goToStep 1 w1)));
             timers := timers (snd (goToStep 1 w1)) |}
          = snd (goToStep 1 w1)) as ->.
  { apply world_eq; cbn [state document timers].
    - pose proof (goToStep_answers 1 w1) as Ha. cbn [w1 state answers] in Ha.
      destruct (state (snd (goToStep 1 w1))) as [k a]. cbn in *. now subst a.
    - rewrite goToStep_document.
      change (resetUI (withStepEls (document w1) ?els))
        with (withStepEls (resetUI (document w1)) els).
      cbn [w1 document]. now rewrite resetUI_idempotent.
    - reflexivity. }
  apply goToStep_idempotent.
Qed.

Lemma uncheck_class (o : option Checkbox) :
  match o with Some cb => checkboxInput cb | None => false end = true ->
  exists cb, uncheck o = Some cb /\ checked cb = false.
Proof.
  destruct o as [[c i]|]; [|discriminate]. simpl. intros ->. eauto.
Qed.

(** X25. When the four check boxes carry the class [checkbox-input], the
    restart leaves the page and the record in agreement: all four boxes are
    unticked, as the four booleans of the record are false, so validating
    step 3 again without touching a box records four times false. *)
Theorem restartAssessment_unticks_boxes (w : World) :
  boxesCarryClass (document w) = true ->
  checkedBoxes (document (snd (restartAssessment w)))
  = Some (digitalInfrastructure (answers (state (snd (restartAssessment w))))) /\
  digitalInfrastructure
    (answers (state (run [RestartAssessment; ValidateStep3] w)))
  = {| cloud := false; mfa := false;
       incidentProcess := false; supplyChain := false |}.
Proof.
  intros Hclass. unfold boxesCarryClass in Hclass. cbn [forallb] in Hclass.
  apply andb_true_iff in Hclass as [Hc Hclass].
  apply andb_true_iff in Hclass as [Hm Hclass].
  apply andb_true_iff in Hclass as [Hi Hclass].
  apply andb_true_iff in Hclass as [Hs _].
  destruct (uncheck_class _ Hc) as (c & Hc' & Hcf).
  destruct (uncheck_class _ Hm) as (m & Hm' & Hmf).
  destruct (uncheck_class _ Hi) as (i & Hi' & Hif).
  destruct (uncheck_class _ Hs) as (s & Hs' & Hsf).
  assert (checkedBoxes (document (snd (restartAssessment w)))
          = Some (digitalInfrastructure initialAnswers)) as Hboxes.
  { rewrite restartAssessment_run, goToStep_document.
    unfold checkedBoxes.
    cbn [document withStepEls resetUI cloudInfra mfaEnabled incidentProcessBox
         supplyChainBox].
    rewrite Hc', Hm', Hi', Hs', Hcf, Hmf, Hif, Hsf. reflexivity. }
  assert (answers (state (snd (restartAssessment w))) = initialAnswers)
    as Hanswers.
  { rewrite restartAssessment_run. now rewrite goToStep_answers. }
  split; [now rewrite Hanswers|].
  change (run [RestartAssessment; ValidateStep3] w)
    with (snd (validateStep3 (snd (restartAssessment w)))).
  rewrite validateStep3_run, Hboxes, goToStep_answers. reflexivity.
Qed.

Lemma restartAssessment_unticks_boxes_witness :
  checkedBoxes (document (snd (restartAssessment (sessionWith scenarioB))))
  = Some (digitalInfrastructure
            (answers (state (snd (restartAssessment (sessionWith scenarioB)))))).
Proof.
  apply (restartAssessment_unticks_boxes (sessionWith scenarioB)).
  reflexivity.
Defined.
